(** * DOOM Retro: client interface to the RPC MIDI server (i_midirpc.c)

    A shallow embedding of [src/i_midirpc.c].  The file keeps a handful of
    statics (two flags, the binding string, the binding handle, the process
    structures) and talks to the outside through Win32, the RPC run time and
    the MIDL stubs.  The statics become a record, the outside becomes an
    oracle that answers each call from the history of calls made so far, and
    every call is appended to that history, so that "was a remote call
    attempted" is a statement about a list of events.  The stubs may raise an
    RPC exception: computations therefore end either normally or with a raised
    exception code, and [RpcTryExcept] is the only construct that catches.
    [midl_user_allocate] and [midl_user_free] wrap malloc and free for the
    stubs and are not called by the file itself. *)

From Stdlib Require Import ZArith List String Bool Lia Arith.
From Equations Require Import Equations.
Import ListNotations.

Local Open Scope string_scope.
Local Open Scope list_scope.
Local Open Scope Z_scope.

(** ** Data *)

(** Pointers and handles are addresses; [NULL] is address zero. *)
Definition pointer := Z.
Definition NULL : pointer := 0.

(** [RPC_STATUS] is a long; [RPC_S_OK] is zero (Windows SDK). *)
Definition RPC_STATUS := Z.
Definition RPC_S_OK : RPC_STATUS := 0.

(** The filter value with which [__except] runs its handler. *)
Definition EXCEPTION_EXECUTE_HANDLER : Z := 1.

(** [MAX_PATH] of the Windows SDK. *)
Definition MAX_PATH : Z := 260.

(** This number * 10 is the amount of time you can try to wait for. *)
Definition MIDIRPC_MAXTRIES : Z := 50.

(** [PROCESS_INFORMATION], as [CreateProcess] fills it. *)
Record PROCESS_INFORMATION := mkProcessInformation {
  hProcess : pointer;
  hThread : pointer;
  dwProcessId : Z;
  dwThreadId : Z
}.

(** The remote procedures of midiproc.h, with their arguments. *)
Inductive remote_op :=
| OpPrepareNewSong
| OpAddChunk (count : Z) (buffer : list Byte.byte)
| OpPlaySong (looping : bool)
| OpStopSong
| OpChangeVolume (volume : Z)
| OpPauseSong
| OpResumeSong
| OpStopServer.

(** A stub either comes back or raises an RPC exception with a code. *)
Inductive rpc_reply :=
| Replied
| Faulted (code : Z).

(** Every call that leaves the translation unit, with what came back. *)
Inductive event :=
| EvFileExists (path : string) (found : bool)
| EvWarning (text : string)
| EvOutput (text : string)
| EvCreateProcess (path : string) (created : option PROCESS_INFORMATION)
| EvStringBindingCompose (protseq endpoint : string)
    (status : RPC_STATUS) (binding : option pointer)
| EvBindingFromStringBinding (binding : pointer)
    (status : RPC_STATUS) (handle : option pointer)
| EvIsServerListening (handle : pointer) (status : RPC_STATUS)
| EvSleep (ms : Z)
| EvRemote (handle : pointer) (op : remote_op) (reply : rpc_reply)
| EvStringFree (binding : pointer)
| EvBindingFree (handle : pointer).

(** The statics the RPC wrappers read: the binding string, the binding
    handle of midiproc.h, and the two flags. *)
Record Session := mkSession {
  szStringBinding : pointer;      (* RPC client binding string *)
  hMidiRPCBinding : pointer;      (* implicit binding handle of the stubs *)
  serverInit : bool;              (* if true, server was started *)
  clientInit : bool               (* if true, client was bound *)
}.

(** The whole state: the session, the server process information ([si.cb]
    is the only field of [si] the file writes), and the calls made so far,
    oldest first. *)
Record Machine := mkMachine {
  session : Session;
  si_cb : Z;
  pi : PROCESS_INFORMATION;
  trace : list event
}.

(** The outside.  Each answer may depend on everything that happened before.
    Helpers of other translation units ([M_GetExecutableFolder],
    [M_snprintf], [DIR_SEPARATOR_S], [sizeof(si)]) are taken as they come. *)
Record Environment := mkEnvironment {
  env_executable_folder : string;
  env_dir_separator : string;
  (* what a buffer of the given size holds after formatting the given text *)
  env_snprintf : Z -> string -> string;
  env_sizeof_startupinfo : Z;
  env_file_exists : list event -> string -> bool;
  (* [Some p]: a nonzero BOOL and [pi] filled with [p]; [None]: zero *)
  env_create_process : list event -> string -> option PROCESS_INFORMATION;
  (* the status, and the value stored through the out-parameter, if any *)
  env_binding_compose :
    list event -> string -> string -> RPC_STATUS * option pointer;
  env_binding_from_string :
    list event -> pointer -> RPC_STATUS * option pointer;
  env_server_listening : list event -> pointer -> RPC_STATUS;
  (* the reply to a stub called on the given implicit handle *)
  env_remote : list event -> pointer -> remote_op -> rpc_reply
}.

(** Statics are zero-initialised. *)
Definition initial_session : Session := mkSession NULL NULL false false.

Definition initial_machine : Machine :=
  mkMachine initial_session 0 (mkProcessInformation NULL NULL 0 0) [].

(** ** Computations: state, and RPC exceptions *)

Inductive outcome (A : Type) : Type :=
| Done (a : A)
| Raised (code : Z).
Arguments Done {A} a.
Arguments Raised {A} code.

Definition M (A : Type) : Type := Machine -> outcome A * Machine.

Definition ret {A} (a : A) : M A := fun m => (Done a, m).

Definition bind {A B} (c : M A) (k : A -> M B) : M B :=
  fun m =>
    match c m with
    | (Done a, m') => k a m'
    | (Raised code, m') => (Raised code, m')
    end.

Declare Scope rpc_scope.
Delimit Scope rpc_scope with rpc.
Notation "x <- c ;; k" := (bind c (fun x => k))
  (at level 61, c at next level, right associativity) : rpc_scope.
Notation "c ;; k" := (bind c (fun _ => k))
  (at level 61, right associativity) : rpc_scope.
Local Open Scope rpc_scope.

Definition set_session (s : Session) (m : Machine) : Machine :=
  mkMachine s (si_cb m) (pi m) (trace m).

Definition record (e : event) (m : Machine) : Machine :=
  mkMachine (session m) (si_cb m) (pi m) (trace m ++ [e]).

Definition get : M Session := fun m => (Done (session m), m).
Definition emit (e : event) : M unit := fun m => (Done tt, record e m).
Definition history : M (list event) := fun m => (Done (trace m), m).

(** [RpcTryExcept body RpcExcept(filter) handler RpcEndExcept]. *)
Definition RpcTryExcept {A} (body : M A) (filter : Z) (handler : M A) : M A :=
  fun m =>
    match body m with
    | (Done a, m') => (Done a, m')
    | (Raised code, m') =>
        if filter =? EXCEPTION_EXECUTE_HANDLER then handler m'
        else (Raised code, m')
    end.

Definition when (b : bool) (c : M unit) : M unit :=
  if b then c else ret tt.

(** Assignments to the statics. *)
Definition set_szStringBinding (p : pointer) (s : Session) : Session :=
  mkSession p (hMidiRPCBinding s) (serverInit s) (clientInit s).
Definition set_hMidiRPCBinding (p : pointer) (s : Session) : Session :=
  mkSession (szStringBinding s) p (serverInit s) (clientInit s).
Definition set_serverInit (b : bool) (s : Session) : Session :=
  mkSession (szStringBinding s) (hMidiRPCBinding s) b (clientInit s).
Definition set_clientInit (b : bool) (s : Session) : Session :=
  mkSession (szStringBinding s) (hMidiRPCBinding s) (serverInit s) b.

Definition assign (f : Session -> Session) : M unit :=
  fun m => (Done tt, set_session (f (session m)) m).
Definition assign_si_cb (n : Z) : M unit :=
  fun m => (Done tt, mkMachine (session m) n (pi m) (trace m)).
Definition assign_pi (p : PROCESS_INFORMATION) : M unit :=
  fun m => (Done tt, mkMachine (session m) (si_cb m) p (trace m)).

(** A nonzero status is an error: [if (status) return false]. *)
Definition failed (status : RPC_STATUS) : bool := negb (status =? 0).

(** [(unsigned int)size] for an [int] size. *)
Definition to_unsigned_int (n : Z) : Z := n mod 2 ^ 32.

(** ** The program *)

Section Program.

Variable env : Environment.

(** *** What the file calls *)

Definition M_FileExists (path : string) : M bool :=
  h <- history ;;
  let found := env_file_exists env h path in
  emit (EvFileExists path found) ;;
  ret found.

Definition C_Warning (text : string) : M unit := emit (EvWarning text).
Definition C_Output (text : string) : M unit := emit (EvOutput text).

(** [CreateProcess(module, NULL, NULL, NULL, FALSE, 0, NULL, NULL, &si, &pi)] *)
Definition CreateProcess (module : string) : M bool :=
  h <- history ;;
  let created := env_create_process env h module in
  emit (EvCreateProcess module created) ;;
  match created with
  | Some p => assign_pi p ;; ret true
  | None => ret false
  end.

(** [RpcStringBindingCompose(NULL, protseq, NULL, endpoint, NULL, &out)]:
    [store] is the assignment through the out-parameter. *)
Definition RpcStringBindingCompose (protseq endpoint : string)
    (store : pointer -> Session -> Session) : M RPC_STATUS :=
  h <- history ;;
  let '(status, out) := env_binding_compose env h protseq endpoint in
  emit (EvStringBindingCompose protseq endpoint status out) ;;
  match out with
  | Some p => assign (store p)
  | None => ret tt
  end ;;
  ret status.

(** [RpcBindingFromStringBinding(binding, &out)] *)
Definition RpcBindingFromStringBinding (binding : pointer)
    (store : pointer -> Session -> Session) : M RPC_STATUS :=
  h <- history ;;
  let '(status, out) := env_binding_from_string env h binding in
  emit (EvBindingFromStringBinding binding status out) ;;
  match out with
  | Some p => assign (store p)
  | None => ret tt
  end ;;
  ret status.

Definition RpcMgmtIsServerListening (handle : pointer) : M RPC_STATUS :=
  h <- history ;;
  let status := env_server_listening env h handle in
  emit (EvIsServerListening handle status) ;;
  ret status.

Definition I_Sleep (ms : Z) : M unit := emit (EvSleep ms).

(** [RpcStringFree(&p)] and [RpcBindingFree(&h)]: the status is dropped, and
    the caller overwrites the variable right after the call. *)
Definition RpcStringFree (binding : pointer) : M unit :=
  emit (EvStringFree binding).
Definition RpcBindingFree (handle : pointer) : M unit :=
  emit (EvBindingFree handle).

(** A MIDL stub: the call goes out on the implicit handle; it comes back, or
    an RPC exception is raised. *)
Definition stub (op : remote_op) : M unit :=
  fun m =>
    let reply := env_remote env (trace m) (hMidiRPCBinding (session m)) op in
    let m' := record (EvRemote (hMidiRPCBinding (session m)) op reply) m in
    match reply with
    | Replied => (Done tt, m')
    | Faulted code => (Raised code, m')
    end.

Definition MidiRPC_PrepareNewSong : M unit := stub OpPrepareNewSong.
Definition MidiRPC_AddChunk (count : Z) (buffer : list Byte.byte) : M unit :=
  stub (OpAddChunk count buffer).
Definition MidiRPC_PlaySong (looping : bool) : M unit :=
  stub (OpPlaySong looping).
Definition MidiRPC_StopSong : M unit := stub OpStopSong.
Definition MidiRPC_ChangeVolume (volume : Z) : M unit :=
  stub (OpChangeVolume volume).
Definition MidiRPC_PauseSong : M unit := stub OpPauseSong.
Definition MidiRPC_ResumeSong : M unit := stub OpResumeSong.
Definition MidiRPC_StopServer : M unit := stub OpStopServer.

(** *** RPC wrappers *)

(** If either server or client initialization failed, we don't try to make
    any RPC calls. *)
Definition CHECK_RPC_STATUS (rest : M bool) : M bool :=
  s <- get ;;
  if negb (serverInit s) || negb (clientInit s) then ret false else rest.

(** How far [tries] is from [MIDIRPC_MAXTRIES]: what the loop counts down. *)
Definition tries_left (tries : Z) : nat := Z.to_nat (MIDIRPC_MAXTRIES - tries).
Arguments tries_left : simpl never.

(** The [while] loop of [I_MidiRPCWaitForServer], entered with the current
    value of [tries]. *)
Equations? wait_loop (tries : Z) (m : Machine) : outcome bool * Machine
  by wf (tries_left tries) lt :=
  wait_loop tries m :=
    (s <- get ;;
     status <- RpcMgmtIsServerListening (hMidiRPCBinding s) ;;
     if status =? RPC_S_OK then ret true
     else
       I_Sleep 10 ;;
       match Z_ge_dec (tries + 1) MIDIRPC_MAXTRIES with
       | left _ => ret false
       | right _ => fun m' => wait_loop (tries + 1) m'
       end) m.
Proof. unfold tries_left, MIDIRPC_MAXTRIES in *. lia. Qed.

Definition I_MidiRPCWaitForServer : M bool := wait_loop 0.

(** Prepare the RPC MIDI engine to receive new song data, and transmit the
    song data to the server process.  Inside the try block [None] means
    "fall through to the statement after RpcEndExcept", [Some v] means
    "return v". *)
Definition I_MidiRPCRegisterSong (data : list Byte.byte) (size : Z) : M bool :=
  CHECK_RPC_STATUS (
    r <- RpcTryExcept
           (MidiRPC_PrepareNewSong ;;
            MidiRPC_AddChunk (to_unsigned_int size) data ;;
            ret None)
           1
           (ret (Some false)) ;;
    match r with
    | Some v => ret v
    | None => ret true
    end).

(** Tell the RPC server to start playing a song. *)
Definition I_MidiRPCPlaySong (looping : bool) : M bool :=
  CHECK_RPC_STATUS (
    r <- RpcTryExcept (MidiRPC_PlaySong looping ;; ret None) 1
           (ret (Some false)) ;;
    match r with
    | Some v => ret v
    | None => ret true
    end).

(** Tell the RPC server to stop any currently playing song. *)
Definition I_MidiRPCStopSong : M bool :=
  CHECK_RPC_STATUS (
    r <- RpcTryExcept (MidiRPC_StopSong ;; ret None) 1
           (ret (Some false)) ;;
    match r with
    | Some v => ret v
    | None => ret true
    end).

(** Change the volume level of music played by the RPC midi server. *)
Definition I_MidiRPCSetVolume (volume : Z) : M bool :=
  CHECK_RPC_STATUS (
    r <- RpcTryExcept (MidiRPC_ChangeVolume volume ;; ret None) 1
           (ret (Some false)) ;;
    match r with
    | Some v => ret v
    | None => ret true
    end).

(** Pause the music being played by the server. *)
Definition I_MidiRPCPauseSong : M bool :=
  CHECK_RPC_STATUS (
    r <- RpcTryExcept (MidiRPC_PauseSong ;; ret None) 1
           (ret (Some false)) ;;
    match r with
    | Some v => ret v
    | None => ret true
    end).

(** Resume a song after having paused it. *)
Definition I_MidiRPCResumeSong : M bool :=
  CHECK_RPC_STATUS (
    r <- RpcTryExcept (MidiRPC_ResumeSong ;; ret None) 1
           (ret (Some false)) ;;
    match r with
    | Some v => ret v
    | None => ret true
    end).

(** *** Public interface *)

(** The path of the server executable, as [M_snprintf] leaves it in
    [char module[MAX_PATH + 1]]. *)
Definition module_path : string :=
  env_snprintf env (MAX_PATH + 1)
    (env_executable_folder env ++ env_dir_separator env ++ "midiproc.exe")%string.

(** Start up the RPC MIDI server. *)
Definition I_MidiRPCInitServer : M bool :=
  let module := module_path in
  (* Look for executable file *)
  found <- M_FileExists module ;;
  if negb found then
    C_Warning ("The RPC server " ++ module ++ " couldn't be found.")%string ;;
    ret false
  else
    assign_si_cb (env_sizeof_startupinfo env) ;;
    result <- CreateProcess module ;;
    (if result then
       C_Output ("Using the RPC server <b>" ++ module
                 ++ "</b> to play MUS and MIDI music lumps.")%string ;;
       assign (set_serverInit true)
     else
       C_Warning ("The RPC server " ++ module
                  ++ " couldn't be initialized.")%string) ;;
    ret result.

(** Initialize client RPC bindings and bind to the server. *)
Definition I_MidiRPCInitClient : M bool :=
  s <- get ;;
  (* If server didn't start, client cannot be bound. *)
  if negb (serverInit s) then ret false
  else
    (* Compose binding string *)
    status <- RpcStringBindingCompose "ncalrpc"
                "2d4dc2f9-ce90-4080-8a00-1cb819086970" set_szStringBinding ;;
    if failed status then ret false
    else
      (* Create binding handle *)
      s <- get ;;
      status <- RpcBindingFromStringBinding (szStringBinding s)
                  set_hMidiRPCBinding ;;
      if failed status then ret false
      else
        assign (set_clientInit true) ;;
        I_MidiRPCWaitForServer.

(** Shutdown the RPC Client *)
Definition I_MidiRPCClientShutDown : M unit :=
  (* stop the server *)
  s <- get ;;
  when (serverInit s)
    (RpcTryExcept MidiRPC_StopServer 1 (ret tt) ;;
     assign (set_serverInit false)) ;;
  s <- get ;;
  when (negb (szStringBinding s =? NULL))
    (RpcStringFree (szStringBinding s) ;;
     assign (set_szStringBinding NULL)) ;;
  s <- get ;;
  when (negb (hMidiRPCBinding s =? NULL))
    (RpcBindingFree (hMidiRPCBinding s) ;;
     assign (set_hMidiRPCBinding NULL)) ;;
  assign (set_clientInit false).

(** *** Callers *)

(** The six commands of the gateway. *)
Inductive command :=
| RegisterSong (data : list Byte.byte) (size : Z)
| PlaySong (looping : bool)
| StopSong
| SetVolume (volume : Z)
| PauseSong
| ResumeSong.

Definition gateway (c : command) : M bool :=
  match c with
  | RegisterSong data size => I_MidiRPCRegisterSong data size
  | PlaySong looping => I_MidiRPCPlaySong looping
  | StopSong => I_MidiRPCStopSong
  | SetVolume volume => I_MidiRPCSetVolume volume
  | PauseSong => I_MidiRPCPauseSong
  | ResumeSong => I_MidiRPCResumeSong
  end.

(** The remote procedures a command asks for, in order. *)
Definition remote_ops (c : command) : list remote_op :=
  match c with
  | RegisterSong data size =>
      [OpPrepareNewSong; OpAddChunk (to_unsigned_int size) data]
  | PlaySong looping => [OpPlaySong looping]
  | StopSong => [OpStopSong]
  | SetVolume volume => [OpChangeVolume volume]
  | PauseSong => [OpPauseSong]
  | ResumeSong => [OpResumeSong]
  end.

(** A call of the public interface. *)
Inductive api_call :=
| Start
| Connect
| Command (c : command)
| ShutDown.

Definition perform (c : api_call) : M unit :=
  match c with
  | Start => I_MidiRPCInitServer ;; ret tt
  | Connect => I_MidiRPCInitClient ;; ret tt
  | Command c => gateway c ;; ret tt
  | ShutDown => I_MidiRPCClientShutDown
  end.

(** A caller that makes the calls one after the other. *)
Fixpoint run (calls : list api_call) : M unit :=
  match calls with
  | [] => ret tt
  | c :: rest => perform c ;; run rest
  end.

End Program.

(** ** Sample environments *)

(** The status of a server that cannot be reached, and the exception code a
    stub raises for it (RPC_S_SERVER_UNAVAILABLE). *)
Definition RPC_S_SERVER_UNAVAILABLE : Z := 1722.

Definition is_listening_check (e : event) : bool :=
  match e with
  | EvIsServerListening _ _ => true
  | _ => false
  end.

Definition is_sleep (e : event) : bool :=
  match e with
  | EvSleep _ => true
  | _ => false
  end.

Definition is_remote (e : event) : bool :=
  match e with
  | EvRemote _ _ _ => true
  | _ => false
  end.

Definition is_string_free (e : event) : bool :=
  match e with
  | EvStringFree _ => true
  | _ => false
  end.

Definition is_binding_free (e : event) : bool :=
  match e with
  | EvBindingFree _ => true
  | _ => false
  end.

Definition count (p : event -> bool) (l : list event) : nat :=
  List.length (filter p l).

(** Milliseconds slept in a list of events. *)
Fixpoint slept (l : list event) : Z :=
  match l with
  | [] => 0
  | EvSleep ms :: rest => ms + slept rest
  | _ :: rest => slept rest
  end.

(** A helper that is on disk iff [present], starts iff [starts], answers the
    listening check with RPC_S_OK from check number [ready] on (never, for
    [None]), and whose stubs raise iff [crashed]. *)
Definition sample_env (present starts : bool) (compose resolve : RPC_STATUS)
    (ready : option nat) (crashed : bool) : Environment :=
  {| env_executable_folder := "C:\doomretro";
     env_dir_separator := "\";
     env_snprintf := fun size text => substring 0 (Z.to_nat (size - 1)) text;
     env_sizeof_startupinfo := 104;
     env_file_exists := fun _ _ => present;
     env_create_process := fun _ _ =>
       if starts then Some (mkProcessInformation 700 704 4242 4243) else None;
     env_binding_compose := fun _ _ _ =>
       (compose, if compose =? RPC_S_OK then Some 4096 else None);
     env_binding_from_string := fun _ _ =>
       (resolve, if resolve =? RPC_S_OK then Some 8192 else None);
     env_server_listening := fun h _ =>
       match ready with
       | Some n =>
           if (n <=? S (count is_listening_check h))%nat then RPC_S_OK
           else RPC_S_SERVER_UNAVAILABLE
       | None => RPC_S_SERVER_UNAVAILABLE
       end;
     env_remote := fun _ _ _ =>
       if crashed then Faulted RPC_S_SERVER_UNAVAILABLE else Replied |}.

(** The helper starts and listens from the third check on. *)
Definition ready_env : Environment :=
  sample_env true true RPC_S_OK RPC_S_OK (Some 3%nat) false.

(** The helper starts but never listens. *)
Definition silent_env : Environment :=
  sample_env true true RPC_S_OK RPC_S_OK None false.

(** The executable is not on disk. *)
Definition missing_env : Environment :=
  sample_env false false RPC_S_OK RPC_S_OK None false.

(** The helper listens at once, and every stub raises. *)
Definition crashed_env : Environment :=
  sample_env true true RPC_S_OK RPC_S_OK (Some 1%nat) true.

(** The descriptor is composed, but no handle comes out of it
    (RPC_S_INVALID_STRING_BINDING). *)
Definition unresolved_env : Environment :=
  sample_env true true RPC_S_OK 1700 None false.

(** A three-byte payload. *)
Definition sample_song : list Byte.byte := [Byte.x4d; Byte.x54; Byte.x68].

(** ** Vocabulary of the statements *)

(** [m] after the calls [evs], statics untouched. *)
Definition extend (m : Machine) (evs : list event) : Machine :=
  mkMachine (session m) (si_cb m) (pi m) (trace m ++ evs).

(** Listening checks that failed with the given statuses, each followed by
    its 10 ms sleep. *)
Fixpoint failed_polls (handle : pointer) (statuses : list RPC_STATUS)
    : list event :=
  match statuses with
  | [] => []
  | status :: rest =>
      EvIsServerListening handle status :: EvSleep 10
        :: failed_polls handle rest
  end.

(** The check that ends a successful poll. *)
Definition final_poll (handle : pointer) (listening : bool) : list event :=
  if listening then [EvIsServerListening handle RPC_S_OK] else [].

(** The stubs [ops] called one after the other on [handle] until one raises:
    whether all came back, and the calls made. *)
Fixpoint invoke_all (env : Environment) (handle : pointer)
    (ops : list remote_op) (tr : list event) : bool * list event :=
  match ops with
  | [] => (true, [])
  | op :: rest =>
      match env_remote env tr handle op with
      | Replied =>
          let '(ok, evs) :=
            invoke_all env handle rest (tr ++ [EvRemote handle op Replied]) in
          (ok, EvRemote handle op Replied :: evs)
      | Faulted code => (false, [EvRemote handle op (Faulted code)])
      end
  end.

(** The gateway as the specification words it: a guard on both flags, then
    the remote operations of the command, a fault turned into [false]. *)
Definition gateway_spec (env : Environment) (c : command) (m : Machine)
    : outcome bool * Machine :=
  if serverInit (session m) && clientInit (session m) then
    let '(ok, evs) :=
      invoke_all env (hMidiRPCBinding (session m)) (remote_ops c) (trace m) in
    (Done ok, extend m evs)
  else (Done false, m).

(** An event that records a stub raising. *)
Definition is_fault (e : event) : bool :=
  match e with
  | EvRemote _ _ (Faulted _) => true
  | _ => false
  end.

(** What [I_MidiRPCClientShutDown] calls, from the statics it finds. *)
Definition shutdown_events (env : Environment) (m : Machine) : list event :=
  let s := session m in
  (if serverInit s then
     [EvRemote (hMidiRPCBinding s) OpStopServer
        (env_remote env (trace m) (hMidiRPCBinding s) OpStopServer)]
   else [])
  ++ (if szStringBinding s =? NULL then [] else [EvStringFree (szStringBinding s)])
  ++ (if hMidiRPCBinding s =? NULL then [] else [EvBindingFree (hMidiRPCBinding s)]).

(** [clientInit] implies [serverInit]. *)
Definition bound_implies_started (s : Session) : bool :=
  implb (clientInit s) (serverInit s).

(** The arguments of [RpcStringBindingCompose] in [I_MidiRPCInitClient]. *)
Definition protseq : string := "ncalrpc".
Definition endpoint : string := "2d4dc2f9-ce90-4080-8a00-1cb819086970".

(** The helper does not report listening within the poll budget: whatever
    failed checks came before, fewer than [MIDIRPC_MAXTRIES] of them, the next
    check on the binding handle of [m] fails too. *)
Definition never_listening (env : Environment) (m : Machine) : Prop :=
  forall sts : list RPC_STATUS,
    (List.length sts < Z.to_nat MIDIRPC_MAXTRIES)%nat ->
    env_server_listening env
      (trace m ++ failed_polls (hMidiRPCBinding (session m)) sts)
      (hMidiRPCBinding (session m)) <> RPC_S_OK.

(** The premises of the timeout scenario: from [m0] start succeeds and gives
    [m1], composing the descriptor succeeds and gives [m2], resolving the
    handle succeeds and gives [m3], and the helper never reports listening. *)
Definition timeout_scenario (env : Environment) (m0 m1 m2 m3 : Machine)
    : Prop :=
  I_MidiRPCInitServer env m0 = (Done true, m1)
  /\ RpcStringBindingCompose env protseq endpoint set_szStringBinding m1
     = (Done RPC_S_OK, m2)
  /\ RpcBindingFromStringBinding env (szStringBinding (session m2))
       set_hMidiRPCBinding m2
     = (Done RPC_S_OK, m3)
  /\ never_listening env m3.

(** The timeout scenario as the specification words it: connect returns
    false, [clientInit] is false afterwards, and no command succeeds. *)
Definition timeout_leaves_unbound (env : Environment) (m0 : Machine) : Prop :=
  forall m1 m2 m3,
    timeout_scenario env m0 m1 m2 m3 ->
    fst (I_MidiRPCInitClient env m1) = Done false
    /\ clientInit (session (snd (I_MidiRPCInitClient env m1))) = false
    /\ forall c,
         fst (gateway env c (snd (I_MidiRPCInitClient env m1))) = Done false.

(** ** Vocabulary of the further properties *)

(** Composing the descriptor fails (ERROR_OUTOFMEMORY). *)
Definition uncomposed_env : Environment :=
  sample_env true true 14 RPC_S_OK None false.

Definition is_start (c : api_call) : bool :=
  match c with
  | Start => true
  | _ => false
  end.

Definition is_free (e : event) : bool :=
  is_string_free e || is_binding_free e.

(** Calls that neither hand out nor release a binding string or handle. *)
Definition is_neutral (e : event) : bool :=
  match e with
  | EvStringBindingCompose _ _ _ _ => false
  | EvBindingFromStringBinding _ _ _ => false
  | EvStringFree _ => false
  | EvBindingFree _ => false
  | _ => true
  end.

(** What [I_MidiRPCInitClient] may call. *)
Definition is_connect_event (e : event) : bool :=
  match e with
  | EvStringBindingCompose _ _ _ _ => true
  | EvBindingFromStringBinding _ _ _ => true
  | EvIsServerListening _ _ => true
  | EvSleep _ => true
  | _ => false
  end.

(** Book-keeping of the two resources along a list of calls, starting with
    the string [sz] and the handle [h] held: a compose or a resolve that
    stores through its out-parameter replaces what is held; a free is in
    order only for what is held at that moment, and only if that is not
    NULL, and leaves NULL held.  [None] when some free is out of order. *)
Fixpoint held (sz h : pointer) (tr : list event) : option (pointer * pointer) :=
  match tr with
  | [] => Some (sz, h)
  | EvStringBindingCompose _ _ _ (Some p) :: rest => held p h rest
  | EvBindingFromStringBinding _ _ (Some p) :: rest => held sz p rest
  | EvStringFree p :: rest =>
      if (p =? sz) && negb (p =? NULL) then held NULL h rest else None
  | EvBindingFree p :: rest =>
      if (p =? h) && negb (p =? NULL) then held sz NULL rest else None
  | _ :: rest => held sz h rest
  end.

(** The statics hold what the calls made so far left in them. *)
Definition holds_what_was_stored (m : Machine) : Prop :=
  held NULL NULL (trace m)
  = Some (szStringBinding (session m), hMidiRPCBinding (session m)).

(** The stub a one-call command asks for, if it is one. *)
Definition single_op (c : command) : option remote_op :=
  match c with
  | RegisterSong _ _ => None
  | PlaySong looping => Some (OpPlaySong looping)
  | StopSong => Some OpStopSong
  | SetVolume volume => Some (OpChangeVolume volume)
  | PauseSong => Some OpPauseSong
  | ResumeSong => Some OpResumeSong
  end.

(** ** Basic facts *)

Lemma extend_nil m : extend m [] = m.
Proof. destruct m; unfold extend; simpl. now rewrite app_nil_r. Qed.

Lemma extend_extend m a b : extend (extend m a) b = extend m (a ++ b).
Proof. unfold extend; simpl. now rewrite app_assoc. Qed.

Lemma count_app p a b : count p (a ++ b) = (count p a + count p b)%nat.
Proof. unfold count. now rewrite filter_app, length_app. Qed.

Lemma slept_app a b : slept (a ++ b) = slept a + slept b.
Proof.
  induction a as [|e a IH]; simpl; [reflexivity|].
  destruct e; rewrite ?IH; lia.
Qed.

(** Unfolds the plumbing of a straight-line function. *)
Ltac run_monad :=
  unfold bind, ret, get, emit, history, assign, assign_si_cb, assign_pi,
    when, RpcTryExcept, set_session in *;
  simpl in *.

(** ** The gateway *)

Lemma stub_run env op m :
  stub env op m =
  (match env_remote env (trace m) (hMidiRPCBinding (session m)) op with
   | Replied => Done tt
   | Faulted code => Raised code
   end,
   extend m [EvRemote (hMidiRPCBinding (session m)) op
               (env_remote env (trace m) (hMidiRPCBinding (session m)) op)]).
Proof. unfold stub. now destruct (env_remote _ _ _ _). Qed.

Lemma gateway_refines env c m : gateway env c m = gateway_spec env c m.
Proof.
  unfold gateway_spec.
  destruct m as [[sz h sI cI] cb p tr].
  destruct c; cbn [gateway remote_ops];
    unfold I_MidiRPCRegisterSong, I_MidiRPCPlaySong, I_MidiRPCStopSong,
      I_MidiRPCSetVolume, I_MidiRPCPauseSong, I_MidiRPCResumeSong,
      CHECK_RPC_STATUS, MidiRPC_PrepareNewSong, MidiRPC_AddChunk,
      MidiRPC_PlaySong, MidiRPC_StopSong, MidiRPC_ChangeVolume,
      MidiRPC_PauseSong, MidiRPC_ResumeSong;
    run_monad;
    destruct sI, cI; simpl; try reflexivity;
    rewrite stub_run; simpl;
    destruct (env_remote env tr h _) eqn:E1; simpl; try reflexivity.
  rewrite stub_run; simpl.
  destruct (env_remote env (tr ++ _) h _) eqn:E2; simpl;
    unfold extend; simpl; now rewrite <- app_assoc.
Qed.

Lemma invoke_all_fault env h ops :
  forall tr, existsb is_fault (snd (invoke_all env h ops tr))
             = negb (fst (invoke_all env h ops tr)).
Proof.
  induction ops as [|op ops IH]; intros tr; simpl; [reflexivity|].
  destruct (env_remote env tr h op); simpl; [|reflexivity].
  specialize (IH (tr ++ [EvRemote h op Replied])).
  destruct (invoke_all env h ops _) as [ok evs]; simpl in *. exact IH.
Qed.

(** A command never raises, and leaves the statics alone. *)
Lemma gateway_done env c m :
  exists b evs, gateway env c m = (Done b, extend m evs).
Proof.
  rewrite gateway_refines. unfold gateway_spec.
  destruct (serverInit (session m) && clientInit (session m)).
  - destruct (invoke_all env _ _ _) as [ok evs]. now exists ok, evs.
  - exists false, []. now rewrite extend_nil.
Qed.

(** With a flag down the guard returns before anything is called. *)
Lemma gateway_guard env c m :
  serverInit (session m) = false \/ clientInit (session m) = false ->
  gateway env c m = (Done false, m).
Proof.
  intros H. rewrite gateway_refines. unfold gateway_spec.
  destruct H as [-> | ->]; [reflexivity|].
  now rewrite andb_false_r.
Qed.

Lemma gateway_true_flags env c m m' :
  gateway env c m = (Done true, m') ->
  serverInit (session m) = true /\ clientInit (session m) = true.
Proof.
  rewrite gateway_refines. unfold gateway_spec.
  destruct (serverInit (session m)), (clientInit (session m)); simpl;
    try discriminate.
  now split.
Qed.

(** ** The readiness poll *)

(** One turn of the loop, with the test of [tries] spelled out. *)
Lemma wait_loop_step env tries m :
  wait_loop env tries m =
  let h := hMidiRPCBinding (session m) in
  let status := env_server_listening env (trace m) h in
  if status =? RPC_S_OK then
    (Done true, extend m [EvIsServerListening h status])
  else if tries + 1 >=? MIDIRPC_MAXTRIES then
    (Done false, extend m [EvIsServerListening h status; EvSleep 10])
  else
    wait_loop env (tries + 1)
      (extend m [EvIsServerListening h status; EvSleep 10]).
Proof.
  rewrite wait_loop_equation_1.
  unfold RpcMgmtIsServerListening, I_Sleep. run_monad.
  destruct (env_server_listening env (trace m) _ =? RPC_S_OK) eqn:E.
  - reflexivity.
  - simpl. unfold extend, record; simpl. rewrite <- app_assoc; simpl.
    destruct (Z_ge_dec (tries + 1) MIDIRPC_MAXTRIES) as [G|G].
    + replace (tries + 1 >=? MIDIRPC_MAXTRIES) with true
        by (symmetry; apply Z.geb_le; lia).
      reflexivity.
    + replace (tries + 1 >=? MIDIRPC_MAXTRIES) with false
        by (symmetry; rewrite Z.geb_leb; apply Z.leb_gt; lia).
      reflexivity.
Qed.

Lemma tries_left_succ tries n :
  tries_left tries = S n ->
  (tries + 1 >=? MIDIRPC_MAXTRIES) = (n =? 0)%nat
  /\ tries_left (tries + 1) = n.
Proof.
  unfold tries_left, MIDIRPC_MAXTRIES. intros H. split; [|lia].
  destruct (Nat.eqb_spec n 0) as [->|Hn].
  - apply Z.geb_le. lia.
  - rewrite Z.geb_leb. apply Z.leb_gt. lia.
Qed.

(** The loop entered with [S n] tries left: it returns, after some failed
    checks (each followed by a sleep) and, for [true], one last check that
    found the server listening. *)
Lemma wait_loop_spec env : forall n tries m,
  tries_left tries = S n ->
  exists (b : bool) (sts : list RPC_STATUS),
    wait_loop env tries m =
      (Done b,
       extend m (failed_polls (hMidiRPCBinding (session m)) sts
                 ++ final_poll (hMidiRPCBinding (session m)) b))
    /\ Forall (fun st => st <> RPC_S_OK) sts
    /\ (if b then
          (List.length sts <= n)%nat
          /\ env_server_listening env
               (trace m ++ failed_polls (hMidiRPCBinding (session m)) sts)
               (hMidiRPCBinding (session m)) = RPC_S_OK
        else List.length sts = S n).
Proof.
  induction n as [|n IH]; intros tries m Hleft;
    rewrite wait_loop_step; cbv zeta;
    destruct (tries_left_succ _ _ Hleft) as [-> Hnext];
    set (h := hMidiRPCBinding (session m)) in *;
    destruct (env_server_listening env (trace m) h =? RPC_S_OK) eqn:E.
  - apply Z.eqb_eq in E. exists true, []. simpl. rewrite app_nil_r, E.
    repeat split; auto.
  - apply Z.eqb_neq in E.
    exists false, [env_server_listening env (trace m) h]. simpl.
    repeat split; auto.
  - apply Z.eqb_eq in E. exists true, []. simpl. rewrite app_nil_r, E.
    repeat split; auto. lia.
  - apply Z.eqb_neq in E. simpl.
    destruct (IH (tries + 1)
                (extend m [EvIsServerListening h
                             (env_server_listening env (trace m) h);
                           EvSleep 10]) Hnext)
      as (b & sts & Hrun & Hfail & Hb).
    simpl in Hrun, Hb. fold h in Hrun, Hb.
    exists b, (env_server_listening env (trace m) h :: sts).
    rewrite Hrun, extend_extend. simpl.
    repeat split; auto.
    destruct b.
    + destruct Hb as [Hlen Hok]. split; [lia|].
      rewrite <- app_assoc in Hok. exact Hok.
    + lia.
Qed.

Lemma failed_polls_checks h sts :
  count is_listening_check (failed_polls h sts) = List.length sts.
Proof. unfold count. induction sts; simpl; congruence. Qed.

Lemma failed_polls_sleeps h sts :
  count is_sleep (failed_polls h sts) = List.length sts.
Proof. unfold count. induction sts; simpl; congruence. Qed.

Lemma failed_polls_slept h sts :
  slept (failed_polls h sts) = 10 * Z.of_nat (List.length sts).
Proof.
  induction sts as [|st sts IH]; [reflexivity|].
  cbn [failed_polls slept List.length]. rewrite IH. lia.
Qed.

Lemma failed_polls_only h sts :
  forallb (fun e => is_listening_check e || is_sleep e) (failed_polls h sts)
  = true.
Proof. induction sts; simpl; auto. Qed.

Lemma tries_left_0 : tries_left 0 = 50%nat.
Proof. reflexivity. Qed.

(** ** Shutdown *)

Lemma shutdown_run env m :
  I_MidiRPCClientShutDown env m =
  (Done tt,
   mkMachine initial_session (si_cb m) (pi m)
     (trace m ++ shutdown_events env m)).
Proof.
  destruct m as [[sz h sI cI] cb p tr].
  unfold I_MidiRPCClientShutDown, shutdown_events, MidiRPC_StopServer,
    RpcStringFree, RpcBindingFree, initial_session.
  run_monad.
  destruct sI; simpl; [rewrite stub_run; simpl;
                       destruct (env_remote env tr h OpStopServer); simpl|];
    destruct (sz =? NULL) eqn:Esz; simpl;
    destruct (h =? NULL) eqn:Eh; simpl;
    try (apply Z.eqb_eq in Esz; rewrite Esz);
    try (apply Z.eqb_eq in Eh; rewrite Eh);
    unfold record, set_szStringBinding, set_hMidiRPCBinding, set_serverInit,
      set_clientInit; simpl;
    rewrite <- ?app_assoc, ?app_nil_r; simpl; reflexivity.
Qed.

Lemma shutdown_events_cleared env m :
  session m = initial_session -> shutdown_events env m = [].
Proof. unfold shutdown_events. intros ->. reflexivity. Qed.

(** ** Start *)

Lemma init_server_run env m :
  I_MidiRPCInitServer env m =
  let module := module_path env in
  if env_file_exists env (trace m) module then
    match env_create_process env
            (trace m ++ [EvFileExists module true]) module with
    | Some p =>
        (Done true,
         mkMachine (set_serverInit true (session m))
           (env_sizeof_startupinfo env) p
           (trace m ++
              [EvFileExists module true;
               EvCreateProcess module (Some p);
               EvOutput ("Using the RPC server <b>" ++ module
                         ++ "</b> to play MUS and MIDI music lumps.")%string]))
    | None =>
        (Done false,
         mkMachine (session m) (env_sizeof_startupinfo env) (pi m)
           (trace m ++
              [EvFileExists module true;
               EvCreateProcess module None;
               EvWarning ("The RPC server " ++ module
                          ++ " couldn't be initialized.")%string]))
    end
  else
    (Done false,
     extend m
       [EvFileExists module false;
        EvWarning ("The RPC server " ++ module
                   ++ " couldn't be found.")%string]).
Proof.
  cbv zeta. unfold I_MidiRPCInitServer, M_FileExists, CreateProcess,
    C_Warning, C_Output.
  run_monad.
  destruct (env_file_exists env (trace m) (module_path env)); simpl.
  - destruct (env_create_process env _ _); simpl;
      unfold record; simpl; rewrite <- !app_assoc; reflexivity.
  - unfold extend, record; simpl. rewrite <- app_assoc. reflexivity.
Qed.

(** ** Connect *)

Lemma init_client_not_started env m :
  serverInit (session m) = false ->
  I_MidiRPCInitClient env m = (Done false, m).
Proof.
  intros H. unfold I_MidiRPCInitClient, bind, get. now rewrite H.
Qed.

Lemma compose_keeps_flags env a b m r m' :
  RpcStringBindingCompose env a b set_szStringBinding m = (r, m') ->
  serverInit (session m') = serverInit (session m)
  /\ clientInit (session m') = clientInit (session m).
Proof.
  unfold RpcStringBindingCompose. run_monad.
  destruct (env_binding_compose env (trace m) a b) as [st [p|]]; simpl;
    intros [= <- <-]; now split.
Qed.

Lemma resolve_keeps_flags env b m r m' :
  RpcBindingFromStringBinding env b set_hMidiRPCBinding m = (r, m') ->
  serverInit (session m') = serverInit (session m)
  /\ clientInit (session m') = clientInit (session m).
Proof.
  unfold RpcBindingFromStringBinding. run_monad.
  destruct (env_binding_from_string env (trace m) b) as [st [p|]]; simpl;
    intros [= <- <-]; now split.
Qed.

Lemma compose_done env a b store m :
  exists st m', RpcStringBindingCompose env a b store m = (Done st, m').
Proof.
  unfold RpcStringBindingCompose. run_monad.
  destruct (env_binding_compose env (trace m) a b) as [st [p|]]; simpl; eauto.
Qed.

Lemma resolve_done env b store m :
  exists st m', RpcBindingFromStringBinding env b store m = (Done st, m').
Proof.
  unfold RpcBindingFromStringBinding. run_monad.
  destruct (env_binding_from_string env (trace m) b) as [st [p|]]; simpl; eauto.
Qed.

(** The function as a chain of its three steps, for a started server. *)
Lemma init_client_started env m :
  serverInit (session m) = true ->
  I_MidiRPCInitClient env m =
  match RpcStringBindingCompose env protseq endpoint set_szStringBinding m with
  | (Done st1, m2) =>
      if failed st1 then (Done false, m2)
      else
        match RpcBindingFromStringBinding env (szStringBinding (session m2))
                set_hMidiRPCBinding m2 with
        | (Done st2, m3) =>
            if failed st2 then (Done false, m3)
            else
              I_MidiRPCWaitForServer env
                (set_session (set_clientInit true (session m3)) m3)
        | (Raised code, m3) => (Raised code, m3)
        end
  | (Raised code, m2) => (Raised code, m2)
  end.
Proof.
  intros H.
  cbv beta iota delta [I_MidiRPCInitClient bind get assign].
  rewrite H. cbn [negb]. fold protseq endpoint.
  destruct (RpcStringBindingCompose _ _ _ _ _) as [[st1|code] m2];
    [|reflexivity].
  destruct (failed st1); [reflexivity|].
  destruct (RpcBindingFromStringBinding _ _ _ _) as [[st2|code] m3];
    [|reflexivity].
  destruct (failed st2); reflexivity.
Qed.

(** The poll returns and leaves the statics alone. *)
Lemma wait_for_server_done env m :
  exists b evs, I_MidiRPCWaitForServer env m = (Done b, extend m evs).
Proof.
  destruct (wait_loop_spec env 49 0 m tries_left_0) as (b & sts & H & _).
  unfold I_MidiRPCWaitForServer. rewrite H. eauto.
Qed.

(** Connect returns, and never touches [serverInit]. *)
Lemma init_client_done env m :
  exists b m',
    I_MidiRPCInitClient env m = (Done b, m')
    /\ serverInit (session m') = serverInit (session m).
Proof.
  destruct (serverInit (session m)) eqn:Hs.
  - rewrite (init_client_started env m Hs).
    destruct (compose_done env protseq endpoint set_szStringBinding m)
      as (st1 & m2 & H1).
    rewrite H1. apply compose_keeps_flags in H1 as [S1 _].
    destruct (failed st1); [exists false, m2; split; congruence|].
    destruct (resolve_done env (szStringBinding (session m2))
                set_hMidiRPCBinding m2) as (st2 & m3 & H2).
    rewrite H2. apply resolve_keeps_flags in H2 as [S2 _].
    destruct (failed st2); [exists false, m3; split; congruence|].
    destruct (wait_for_server_done env
                (set_session (set_clientInit true (session m3)) m3))
      as (b & evs & ->).
    exists b. eexists. split; [reflexivity|]. simpl. congruence.
  - rewrite (init_client_not_started env m Hs). eauto.
Qed.

(** ** Call sequences *)

Lemma perform_invariant env c m :
  bound_implies_started (session m) = true ->
  exists m',
    perform env c m = (Done tt, m')
    /\ bound_implies_started (session m') = true.
Proof.
  unfold bound_implies_started. intros Inv.
  destruct c as [| |c|]; cbn [perform]; unfold bind, ret.
  - rewrite init_server_run. cbv zeta.
    destruct (env_file_exists env _ _);
      [destruct (env_create_process env _ _)|];
      eexists; (split; [reflexivity|]); simpl; auto.
    now destruct (clientInit (session m)).
  - destruct (init_client_done env m) as (b & m' & Hrun & Hs).
    rewrite Hrun. exists m'. split; [reflexivity|].
    destruct (serverInit (session m)) eqn:E.
    + rewrite Hs. now destruct (clientInit (session m')).
    + rewrite (init_client_not_started env m E) in Hrun.
      injection Hrun as _ <-. now rewrite E in *.
  - destruct (gateway_done env c m) as (b & evs & ->).
    eexists. split; [reflexivity|]. exact Inv.
  - rewrite shutdown_run. eexists. split; reflexivity.
Qed.

Lemma run_invariant env calls :
  forall m,
    bound_implies_started (session m) = true ->
    exists m',
      run env calls m = (Done tt, m')
      /\ bound_implies_started (session m') = true.
Proof.
  induction calls as [|c calls IH]; intros m Inv; cbn [run].
  - exists m. now split.
  - destruct (perform_invariant env c m Inv) as (m1 & Hc & Inv1).
    unfold bind. rewrite Hc. exact (IH m1 Inv1).
Qed.

(** ** The claims *)

(** C1, as the specification has it, fails: with a helper that starts and
    never listens, connect returns false but [clientInit] is already true,
    and a later play command goes out and returns true. *)
Lemma connect_timeout_counterexample :
  ~ timeout_leaves_unbound silent_env initial_machine.
Proof.
  intros H.
  pose (m1 := snd (I_MidiRPCInitServer silent_env initial_machine)).
  pose (m2 := snd (RpcStringBindingCompose silent_env protseq endpoint
                     set_szStringBinding m1)).
  pose (m3 := snd (RpcBindingFromStringBinding silent_env
                     (szStringBinding (session m2)) set_hMidiRPCBinding m2)).
  destruct (H m1 m2 m3) as (_ & Hflag & _).
  - repeat split; try (vm_compute; reflexivity).
    intros sts _. discriminate.
  - vm_compute in Hflag. discriminate.
Qed.

(** C1, amended: when start succeeds, the descriptor is composed and the
    handle resolved, but the helper does not report listening within the
    50-try budget, connect returns false; [clientInit] was set before the
    poll and is true after the call, so a command issued afterwards passes
    the guard, calls its stubs, and returns false only if one of them
    raises. *)
Theorem connect_timeout_keeps_client_bound env m0 m1 m2 m3 :
  timeout_scenario env m0 m1 m2 m3 ->
  exists m4,
    I_MidiRPCInitClient env m1 = (Done false, m4)
    /\ clientInit (session m4) = true
    /\ serverInit (session m4) = true
    /\ forall c,
         gateway env c m4 =
         (let '(ok, evs) :=
            invoke_all env (hMidiRPCBinding (session m4)) (remote_ops c)
              (trace m4) in
          (Done ok, extend m4 evs)).
Proof.
  intros (Hstart & Hcompose & Hresolve & Hsilent).
  assert (Hs1 : serverInit (session m1) = true).
  { rewrite init_server_run in Hstart. cbv zeta in Hstart.
    destruct (env_file_exists env _ _); [|discriminate].
    destruct (env_create_process env _ _); [|discriminate].
    injection Hstart as <-. reflexivity. }
  destruct (compose_keeps_flags _ _ _ _ _ _ Hcompose) as [Hs2 _].
  destruct (resolve_keeps_flags _ _ _ _ _ Hresolve) as [Hs3 _].
  rewrite (init_client_started env m1 Hs1), Hcompose. cbn [failed Z.eqb negb].
  rewrite Hresolve. cbn [failed Z.eqb negb].
  set (m3' := set_session (set_clientInit true (session m3)) m3).
  destruct (wait_loop_spec env 49 0 m3' tries_left_0) as (b & sts & Hrun & _ & Hb).
  unfold I_MidiRPCWaitForServer. rewrite Hrun.
  destruct b.
  - destruct Hb as [Hlen Hok]. exfalso.
    apply (Hsilent sts); [unfold MIDIRPC_MAXTRIES; simpl; lia|exact Hok].
  - rewrite app_nil_r. eexists. split; [reflexivity|].
    repeat split; simpl; try congruence.
    intros c. rewrite gateway_refines. unfold gateway_spec. simpl.
    replace (serverInit (session m3)) with true by congruence.
    reflexivity.
Qed.

(** The silent helper, from the zero-initialised statics. *)
Lemma connect_timeout_keeps_client_bound_witness :
  exists m4,
    I_MidiRPCInitClient silent_env
      (snd (I_MidiRPCInitServer silent_env initial_machine))
    = (Done false, m4)
    /\ clientInit (session m4) = true
    /\ serverInit (session m4) = true
    /\ forall c,
         gateway silent_env c m4 =
         (let '(ok, evs) :=
            invoke_all silent_env (hMidiRPCBinding (session m4))
              (remote_ops c) (trace m4) in
          (Done ok, extend m4 evs)).
Proof.
  apply (connect_timeout_keeps_client_bound silent_env initial_machine
           (snd (I_MidiRPCInitServer silent_env initial_machine))
           (snd (RpcStringBindingCompose silent_env protseq endpoint
                   set_szStringBinding
                   (snd (I_MidiRPCInitServer silent_env initial_machine))))
           (snd (RpcBindingFromStringBinding silent_env 4096
                   set_hMidiRPCBinding
                   (snd (RpcStringBindingCompose silent_env protseq endpoint
                           set_szStringBinding
                           (snd (I_MidiRPCInitServer silent_env
                                   initial_machine))))))).
  repeat split; try (vm_compute; reflexivity).
  intros sts _. discriminate.
Defined.

(** C2: after any sequence of calls of the public interface, a command that
    returns true found both [serverInit] and [clientInit] true; with either
    flag false it returns false and the machine is as before, so that no call
    was made. *)
Theorem guard_invariant env (calls : list api_call) (c : command) :
  let m := snd (run env calls initial_machine) in
  (forall m', gateway env c m = (Done true, m') ->
              serverInit (session m) = true /\ clientInit (session m) = true)
  /\ (serverInit (session m) = false \/ clientInit (session m) = false ->
      gateway env c m = (Done false, m)).
Proof.
  intros m. split.
  - intros m'. apply gateway_true_flags.
  - apply gateway_guard.
Qed.

(** C3: every command of the gateway returns a boolean, never a raised
    exception; when one of its stubs raised, the boolean is false. *)
Theorem transport_fault_returns_false env (c : command) m :
  exists (b : bool) (evs : list event),
    gateway env c m = (Done b, extend m evs)
    /\ (existsb is_fault evs = true -> b = false).
Proof.
  rewrite gateway_refines. unfold gateway_spec.
  destruct (serverInit (session m) && clientInit (session m)).
  - pose proof (invoke_all_fault env (hMidiRPCBinding (session m))
                  (remote_ops c) (trace m)) as F.
    destruct (invoke_all env _ _ _) as [ok evs]. simpl in F.
    exists ok, evs. split; [reflexivity|].
    intros H. rewrite H in F. now destruct ok.
  - exists false, []. rewrite extend_nil. now split.
Qed.

(** C4: shutdown returns normally whatever the statics hold and whatever the
    stop-server stub does; it frees the binding string once if there is one
    and the binding handle once if there is one, and leaves both flags false
    and both resources NULL; a second shutdown returns normally, calls
    nothing and leaves that state as it is. *)
Theorem shutdown_idempotent env m :
  let evs := shutdown_events env m in
  let m1 := mkMachine initial_session (si_cb m) (pi m) (trace m ++ evs) in
  I_MidiRPCClientShutDown env m = (Done tt, m1)
  /\ I_MidiRPCClientShutDown env m1 = (Done tt, m1)
  /\ count is_string_free evs
     = (if szStringBinding (session m) =? NULL then 0%nat else 1%nat)
  /\ count is_binding_free evs
     = (if hMidiRPCBinding (session m) =? NULL then 0%nat else 1%nat).
Proof.
  intros evs m1. split; [apply shutdown_run|]. split.
  - rewrite shutdown_run.
    rewrite (shutdown_events_cleared env m1 eq_refl), app_nil_r. reflexivity.
  - subst evs. unfold shutdown_events. rewrite !count_app.
    destruct (serverInit (session m)),
      (szStringBinding (session m) =? NULL),
      (hMidiRPCBinding (session m) =? NULL); split; reflexivity.
Qed.

(** C5: with [serverInit] false, connect returns false and the machine is as
    before: nothing was composed, resolved or polled, and no static was
    written. *)
Theorem connect_without_server env m :
  serverInit (session m) = false ->
  I_MidiRPCInitClient env m = (Done false, m)
  /\ trace (snd (I_MidiRPCInitClient env m)) = trace m.
Proof.
  intros H. rewrite (init_client_not_started env m H). now split.
Qed.

(** Connect as the first call. *)
Lemma connect_without_server_witness :
  I_MidiRPCInitClient ready_env initial_machine = (Done false, initial_machine)
  /\ trace (snd (I_MidiRPCInitClient ready_env initial_machine))
     = trace initial_machine.
Proof.
  apply (connect_without_server ready_env initial_machine). reflexivity.
Defined.

(** C6: the readiness poll returns.  It makes only listening checks and
    10 ms sleeps: some failed checks, each followed by a sleep, then for
    [true] one check that found the server listening, and for [false]
    nothing more after 50 failed checks.  So at most 50 checks are made
    and at most 500 ms are slept. *)
Theorem readiness_poll_bounded env m :
  exists (b : bool) (sts : list RPC_STATUS),
    let h := hMidiRPCBinding (session m) in
    let evs := failed_polls h sts ++ final_poll h b in
    I_MidiRPCWaitForServer env m = (Done b, extend m evs)
    /\ Forall (fun st => st <> RPC_S_OK) sts
    /\ (if b then
          env_server_listening env (trace m ++ failed_polls h sts) h
          = RPC_S_OK
        else List.length sts = Z.to_nat MIDIRPC_MAXTRIES)
    /\ (count is_listening_check evs <= 50)%nat
    /\ (count is_sleep evs <= 50)%nat
    /\ slept evs = 10 * Z.of_nat (count is_sleep evs)
    /\ slept evs <= 500
    /\ forallb (fun e => is_listening_check e || is_sleep e) evs = true.
Proof.
  destruct (wait_loop_spec env 49 0 m tries_left_0) as (b & sts & H & F & Hb).
  exists b, sts. cbv zeta. unfold I_MidiRPCWaitForServer. rewrite H.
  split; [reflexivity|]. split; [exact F|].
  rewrite !count_app, slept_app, forallb_app, failed_polls_checks,
    failed_polls_sleeps, failed_polls_slept, failed_polls_only.
  destruct b; cbn [final_poll count filter is_listening_check is_sleep
                     List.length slept forallb orb andb].
  - destruct Hb as [Hlen Hok]. repeat split; auto; lia.
  - repeat split; auto; lia.
Qed.

(** C7: past the guard, RegisterSong calls prepare-new-song and then
    add-chunk with the whole payload, in that order and nothing else.  It
    returns true when both came back.  When prepare raises it returns false
    and add-chunk is not called; when add-chunk raises it returns false;
    in neither case is any further stub called to undo what was prepared. *)
Theorem register_song_two_steps env data size m :
  serverInit (session m) = true ->
  clientInit (session m) = true ->
  let h := hMidiRPCBinding (session m) in
  let chunk := OpAddChunk (to_unsigned_int size) data in
  I_MidiRPCRegisterSong env data size m =
  match env_remote env (trace m) h OpPrepareNewSong with
  | Faulted code =>
      (Done false, extend m [EvRemote h OpPrepareNewSong (Faulted code)])
  | Replied =>
      match env_remote env (trace m ++ [EvRemote h OpPrepareNewSong Replied])
              h chunk with
      | Faulted code =>
          (Done false,
           extend m [EvRemote h OpPrepareNewSong Replied;
                     EvRemote h chunk (Faulted code)])
      | Replied =>
          (Done true,
           extend m [EvRemote h OpPrepareNewSong Replied;
                     EvRemote h chunk Replied])
      end
  end.
Proof.
  intros Hs Hc h chunk.
  change (I_MidiRPCRegisterSong env data size m)
    with (gateway env (RegisterSong data size) m).
  rewrite gateway_refines. unfold gateway_spec. rewrite Hs, Hc.
  cbn [andb remote_ops invoke_all]. fold h chunk.
  destruct (env_remote env (trace m) h OpPrepareNewSong); [|reflexivity].
  destruct (env_remote env _ h chunk); reflexivity.
Qed.

(** A three-byte song registered after start and connect. *)
Lemma register_song_two_steps_witness :
  let m := snd (run ready_env [Start; Connect] initial_machine) in
  I_MidiRPCRegisterSong ready_env sample_song 3 m =
  (Done true,
   extend m [EvRemote 8192 OpPrepareNewSong Replied;
             EvRemote 8192 (OpAddChunk 3 sample_song) Replied]).
Proof.
  exact (register_song_two_steps ready_env sample_song 3
           (snd (run ready_env [Start; Connect] initial_machine))
           eq_refl eq_refl).
Defined.

(** C8: start returns true exactly when the executable is found and the
    process is created, and then [serverInit] is true; when it returns false
    the session is as before (and so is [pi]), so that, [serverInit] being
    false before, a connect that follows returns false without a call. *)
Theorem start_sets_flag_iff_created env m :
  exists (b : bool) (m' : Machine),
    I_MidiRPCInitServer env m = (Done b, m')
    /\ (b = true <->
        env_file_exists env (trace m) (module_path env) = true
        /\ env_create_process env
             (trace m ++ [EvFileExists (module_path env) true])
             (module_path env) <> None)
    /\ (b = true -> serverInit (session m') = true)
    /\ (b = false ->
        session m' = session m
        /\ pi m' = pi m
        /\ (serverInit (session m) = false ->
            I_MidiRPCInitClient env m' = (Done false, m'))).
Proof.
  rewrite init_server_run. cbv zeta.
  destruct (env_file_exists env (trace m) (module_path env));
    [destruct (env_create_process env _ _)|];
    eexists; eexists; (split; [reflexivity|]).
  - repeat split; auto; discriminate.
  - split; [split; [discriminate|intros [_ H]; now elim H]|].
    split; [discriminate|]. intros _. repeat split.
    intros H. now apply init_client_not_started.
  - split; [split; [discriminate|intros [H _]; discriminate]|].
    split; [discriminate|]. intros _. repeat split.
    intros H. now apply init_client_not_started.
Qed.

(** C9: after any sequence of calls of the public interface, starting from
    the zero-initialised statics, [clientInit] true implies [serverInit]
    true. *)
Theorem client_bound_implies_server_started env (calls : list api_call) :
  let s := session (snd (run env calls initial_machine)) in
  clientInit s = true -> serverInit s = true.
Proof.
  intros s Hc.
  destruct (run_invariant env calls initial_machine eq_refl)
    as (m' & Hrun & Inv).
  subst s. rewrite Hrun in *. cbn [snd] in *.
  unfold bound_implies_started in Inv. rewrite Hc in Inv. exact Inv.
Qed.

(** After start and connect both flags are true. *)
Lemma client_bound_implies_server_started_witness :
  serverInit
    (session (snd (run ready_env [Start; Connect] initial_machine))) = true.
Proof.
  apply (client_bound_implies_server_started ready_env [Start; Connect]).
  reflexivity.
Defined.

(** C10: with [serverInit] true, shutdown calls the stop-server stub first,
    whatever [clientInit] is; in particular with [clientInit] false, where
    the guard of the gateway turns every command away without a call. *)
Theorem shutdown_stops_started_server env m :
  serverInit (session m) = true ->
  let h := hMidiRPCBinding (session m) in
  exists (m' : Machine) (rest : list event),
    I_MidiRPCClientShutDown env m = (Done tt, m')
    /\ trace m' =
       trace m
       ++ EvRemote h OpStopServer (env_remote env (trace m) h OpStopServer)
       :: rest
    /\ forallb (fun e => negb (is_remote e)) rest = true
    /\ (clientInit (session m) = false ->
        forall c, gateway env c m = (Done false, m)).
Proof.
  intros Hs h. rewrite shutdown_run. eexists. eexists.
  split; [reflexivity|]. cbn [trace]. unfold shutdown_events. rewrite Hs.
  fold h. cbn [app]. split; [reflexivity|]. split.
  - destruct (szStringBinding (session m) =? NULL), (h =? NULL); reflexivity.
  - intros Hc c. apply gateway_guard. now right.
Qed.

(** Shutdown right after start: the client was never bound, the handle is
    NULL, and stop-server is called all the same. *)
Lemma shutdown_stops_started_server_witness :
  let m := snd (run ready_env [Start] initial_machine) in
  clientInit (session m) = false
  /\ exists (m' : Machine) (rest : list event),
       I_MidiRPCClientShutDown ready_env m = (Done tt, m')
       /\ trace m' = trace m ++ EvRemote NULL OpStopServer Replied :: rest
       /\ forallb (fun e => negb (is_remote e)) rest = true
       /\ (clientInit (session m) = false ->
           forall c, gateway ready_env c m = (Done false, m)).
Proof.
  split; [reflexivity|].
  exact (shutdown_stops_started_server ready_env
           (snd (run ready_env [Start] initial_machine)) eq_refl).
Defined.

(** ** Scenarios *)

(** Start, connect, register, play, set the volume: all return true, and
    shutdown brings the session back to the zero-initialised statics. *)
Example full_session :
  fst ((a <- I_MidiRPCInitServer ready_env ;;
        b <- I_MidiRPCInitClient ready_env ;;
        c <- I_MidiRPCRegisterSong ready_env sample_song 3 ;;
        d <- I_MidiRPCPlaySong ready_env true ;;
        e <- I_MidiRPCSetVolume ready_env 50 ;;
        I_MidiRPCClientShutDown ready_env ;;
        s <- get ;;
        ret ([a; b; c; d; e], s)) initial_machine)
  = Done ([true; true; true; true; true], initial_session).
Proof. vm_compute. reflexivity. Qed.

(** The executable is missing: start returns false, connect returns false,
    and the only calls made are the look-up and the warning. *)
Example missing_executable :
  (a <- I_MidiRPCInitServer missing_env ;;
   b <- I_MidiRPCInitClient missing_env ;;
   ret (a, b)) initial_machine
  = (Done (false, false),
     extend initial_machine
       [EvFileExists "C:\doomretro\midiproc.exe" false;
        EvWarning
          "The RPC server C:\doomretro\midiproc.exe couldn't be found."]).
Proof. vm_compute. reflexivity. Qed.

(** The helper is gone after connect: a command returns false, and shutdown
    still frees the string and the handle. *)
Example crashed_helper :
  let '(r, m) :=
    (a <- I_MidiRPCInitServer crashed_env ;;
     b <- I_MidiRPCInitClient crashed_env ;;
     c <- I_MidiRPCPlaySong crashed_env true ;;
     I_MidiRPCClientShutDown crashed_env ;;
     ret [a; b; c]) initial_machine in
  r = Done [true; true; false]
  /\ session m = initial_session
  /\ filter (fun e => is_remote e || is_string_free e || is_binding_free e)
       (trace m)
     = [EvRemote 8192 (OpPlaySong true) (Faulted RPC_S_SERVER_UNAVAILABLE);
        EvRemote 8192 OpStopServer (Faulted RPC_S_SERVER_UNAVAILABLE);
        EvStringFree 4096;
        EvBindingFree 8192].
Proof. vm_compute. repeat split. Qed.

(** The descriptor was composed and the handle was not resolved: the first
    shutdown stops the server and frees the string alone, the second calls
    nothing. *)
Example shutdown_after_partial_connect :
  let m := snd (run unresolved_env [Start; Connect] initial_machine) in
  let m1 := snd (I_MidiRPCClientShutDown unresolved_env m) in
  let m2 := snd (I_MidiRPCClientShutDown unresolved_env m1) in
  session m = mkSession 4096 NULL true false
  /\ trace m1 = trace m ++ [EvRemote NULL OpStopServer Replied;
                            EvStringFree 4096]
  /\ session m1 = initial_session
  /\ m2 = m1.
Proof. vm_compute. repeat split. Qed.

(** With the silent helper the poll makes 50 checks and sleeps 500 ms. *)
Example silent_helper_poll :
  let '(r, m) :=
    (I_MidiRPCInitServer silent_env ;; I_MidiRPCInitClient silent_env)
      initial_machine in
  r = Done false
  /\ count is_listening_check (trace m) = 50%nat
  /\ slept (trace m) = 500
  /\ clientInit (session m) = true.
Proof. vm_compute. repeat split. Qed.

(** ** Further properties *)

(** *** Helpers *)

Lemma invoke_all_remote env h ops :
  forall tr, forallb is_remote (snd (invoke_all env h ops tr)) = true.
Proof.
  induction ops as [|op ops IH]; intros tr; simpl; [reflexivity|].
  destruct (env_remote env tr h op); simpl; [|reflexivity].
  specialize (IH (tr ++ [EvRemote h op Replied])).
  destruct (invoke_all env h ops _) as [ok evs]; simpl in *. exact IH.
Qed.

Lemma invoke_all_length env h ops :
  forall tr,
    (List.length (snd (invoke_all env h ops tr)) <= List.length ops)%nat.
Proof.
  induction ops as [|op ops IH]; intros tr; simpl; [lia|].
  destruct (env_remote env tr h op); simpl; [|lia].
  specialize (IH (tr ++ [EvRemote h op Replied])).
  destruct (invoke_all env h ops _) as [ok evs]; simpl in *. lia.
Qed.

Lemma held_app sz h a :
  forall b sz0 h0,
    held sz0 h0 a = Some (sz, h) ->
    held sz0 h0 (a ++ b) = held sz h b.
Proof.
  induction a as [|e a IH]; intros b sz0 h0; simpl.
  - now intros [= -> ->].
  - destruct e; try apply IH.
    + destruct binding; apply IH.
    + destruct handle; apply IH.
    + destruct ((binding =? sz0) && negb (binding =? NULL));
        [apply IH|discriminate].
    + destruct ((handle =? h0) && negb (handle =? NULL));
        [apply IH|discriminate].
Qed.

Lemma held_neutral evs :
  forallb is_neutral evs = true ->
  forall sz h, held sz h evs = Some (sz, h).
Proof.
  induction evs as [|e evs IH]; intros H sz h; simpl in *; [reflexivity|].
  apply andb_prop in H as [He H].
  destruct e; try discriminate; now apply IH.
Qed.

Lemma remote_neutral evs :
  forallb is_remote evs = true -> forallb is_neutral evs = true.
Proof.
  induction evs as [|e evs IH]; simpl; [reflexivity|].
  intros H. apply andb_prop in H as [He H].
  rewrite (IH H). now destruct e.
Qed.

Lemma polls_neutral h sts b :
  forallb is_neutral (failed_polls h sts ++ final_poll h b) = true.
Proof.
  rewrite forallb_app.
  replace (forallb is_neutral (failed_polls h sts)) with true
    by (induction sts; simpl; auto).
  now destruct b.
Qed.

Lemma polls_connect_events h sts b :
  forallb is_connect_event (failed_polls h sts ++ final_poll h b) = true.
Proof.
  rewrite forallb_app.
  replace (forallb is_connect_event (failed_polls h sts)) with true
    by (induction sts; simpl; auto).
  now destruct b.
Qed.

(** The two calls of connect that store through an out-parameter. *)
Lemma compose_run env a b store m :
  RpcStringBindingCompose env a b store m =
  (Done (fst (env_binding_compose env (trace m) a b)),
   let out := snd (env_binding_compose env (trace m) a b) in
   let m' :=
     extend m [EvStringBindingCompose a b
                 (fst (env_binding_compose env (trace m) a b)) out] in
   match out with
   | Some p => set_session (store p (session m)) m'
   | None => m'
   end).
Proof.
  unfold RpcStringBindingCompose. run_monad.
  destruct (env_binding_compose env (trace m) a b) as [st [p|]]; reflexivity.
Qed.

Lemma resolve_run env b store m :
  RpcBindingFromStringBinding env b store m =
  (Done (fst (env_binding_from_string env (trace m) b)),
   let out := snd (env_binding_from_string env (trace m) b) in
   let m' :=
     extend m [EvBindingFromStringBinding b
                 (fst (env_binding_from_string env (trace m) b)) out] in
   match out with
   | Some p => set_session (store p (session m)) m'
   | None => m'
   end).
Proof.
  unfold RpcBindingFromStringBinding. run_monad.
  destruct (env_binding_from_string env (trace m) b) as [st [p|]];
    reflexivity.
Qed.

(** Everything connect does, in one statement: it returns; it calls nothing
    but compose, resolve, listening checks and sleeps; the statics hold what
    those calls stored; [serverInit], [si.cb] and [pi] are as before and
    [clientInit] is not lowered. *)
Lemma init_client_trace env m :
  exists (b : bool) (m' : Machine) (evs : list event),
    I_MidiRPCInitClient env m = (Done b, m')
    /\ trace m' = trace m ++ evs
    /\ forallb is_connect_event evs = true
    /\ held (szStringBinding (session m)) (hMidiRPCBinding (session m)) evs
       = Some (szStringBinding (session m'), hMidiRPCBinding (session m'))
    /\ serverInit (session m') = serverInit (session m)
    /\ (clientInit (session m) = true -> clientInit (session m') = true)
    /\ si_cb m' = si_cb m
    /\ pi m' = pi m.
Proof.
  destruct (serverInit (session m)) eqn:Hs.
  2:{ exists false, m, []. rewrite (init_client_not_started env m Hs).
      rewrite app_nil_r. repeat split; auto. }
  rewrite (init_client_started env m Hs), compose_run. cbv zeta.
  destruct m as [[sz h sI cI] cb p tr]. simpl in Hs. subst sI.
  cbn [trace session extend si_cb pi szStringBinding hMidiRPCBinding
       serverInit clientInit].
  destruct (env_binding_compose env tr protseq endpoint) as [st1 [p1|]];
    cbn [fst snd set_session set_szStringBinding trace session si_cb pi
         szStringBinding hMidiRPCBinding serverInit clientInit];
    (destruct (failed st1);
     [exists false; eexists; eexists (cons _ nil);
      split; [reflexivity|]; cbn; repeat split; auto|]);
    rewrite resolve_run; cbv zeta;
    cbn [trace session extend si_cb pi szStringBinding hMidiRPCBinding
         serverInit clientInit];
    destruct (env_binding_from_string env _ _) as [st2 [p2|]];
    cbn [fst snd set_session set_hMidiRPCBinding trace session si_cb pi
         szStringBinding hMidiRPCBinding serverInit clientInit];
    (destruct (failed st2);
     [exists false; eexists; eexists (cons _ (cons _ nil));
      split; [reflexivity|]; cbn; rewrite <- ?app_assoc;
      cbn; repeat split; auto|]).
  all: unfold set_session, set_clientInit, set_hMidiRPCBinding,
         set_szStringBinding, extend;
       cbn [session si_cb pi trace szStringBinding hMidiRPCBinding
            serverInit clientInit].
  all: match goal with
       | |- context [I_MidiRPCWaitForServer ?E ?M] =>
           destruct (wait_loop_spec E 49 0 M tries_left_0)
             as (b & sts & Hrun & _);
           unfold I_MidiRPCWaitForServer; rewrite Hrun;
           exists b
       end;
    eexists;
    match goal with
    | |- context [(?t ++ [?e1]) ++ [?e2]] =>
        match goal with
        | |- context [failed_polls ?hh ?ss ++ final_poll ?hh ?bb] =>
            exists (e1 :: e2 :: failed_polls hh ss ++ final_poll hh bb)
        end
    end;
    (split; [reflexivity|]);
    unfold extend;
    cbn [session si_cb pi trace szStringBinding hMidiRPCBinding
         serverInit clientInit];
    rewrite <- !app_assoc; cbn [app];
    (split; [reflexivity|]);
    cbn [forallb is_connect_event andb held];
    rewrite polls_connect_events;
    rewrite (held_neutral _ (polls_neutral _ _ _));
    repeat split; auto.
Qed.

Lemma gateway_events env c m :
  exists (b : bool) (evs : list event),
    gateway env c m = (Done b, extend m evs)
    /\ forallb is_remote evs = true
    /\ (List.length evs <= List.length (remote_ops c))%nat.
Proof.
  rewrite gateway_refines. unfold gateway_spec.
  destruct (serverInit (session m) && clientInit (session m)).
  - pose proof (invoke_all_remote env (hMidiRPCBinding (session m))
                  (remote_ops c) (trace m)) as R.
    pose proof (invoke_all_length env (hMidiRPCBinding (session m))
                  (remote_ops c) (trace m)) as L.
    destruct (invoke_all env _ _ _) as [ok evs]. simpl in R, L.
    now exists ok, evs.
  - exists false, []. rewrite extend_nil. simpl. repeat split. lia.
Qed.

Lemma shutdown_held env m :
  held (szStringBinding (session m)) (hMidiRPCBinding (session m))
    (shutdown_events env m) = Some (NULL, NULL).
Proof.
  unfold shutdown_events.
  destruct (serverInit (session m)); cbn [app held];
    destruct (szStringBinding (session m) =? NULL) eqn:Esz;
    destruct (hMidiRPCBinding (session m) =? NULL) eqn:Eh;
    cbn [app held]; rewrite ?Z.eqb_refl, ?Esz, ?Eh; cbn [andb negb];
    try (apply Z.eqb_eq in Esz; rewrite Esz);
    try (apply Z.eqb_eq in Eh; rewrite Eh);
    reflexivity.
Qed.

Lemma perform_held env c m :
  holds_what_was_stored m ->
  exists m', perform env c m = (Done tt, m') /\ holds_what_was_stored m'.
Proof.
  unfold holds_what_was_stored. intros Inv.
  destruct c as [| |c|]; cbn [perform]; unfold bind, ret.
  - rewrite init_server_run. cbv zeta.
    destruct (env_file_exists env _ _);
      [destruct (env_create_process env _ _)|];
      eexists; (split; [reflexivity|]);
      cbn [trace session extend set_serverInit szStringBinding
           hMidiRPCBinding];
      rewrite (held_app _ _ _ _ _ _ Inv); reflexivity.
  - destruct (init_client_trace env m)
      as (b & m' & evs & Hrun & Htr & _ & Hheld & _).
    rewrite Hrun. exists m'. split; [reflexivity|].
    rewrite Htr, (held_app _ _ _ _ _ _ Inv). exact Hheld.
  - destruct (gateway_events env c m) as (b & evs & Hrun & Hrem & _).
    rewrite Hrun. eexists. split; [reflexivity|].
    cbn [trace session extend].
    rewrite (held_app _ _ _ _ _ _ Inv).
    apply held_neutral, remote_neutral, Hrem.
  - rewrite shutdown_run. eexists. split; [reflexivity|].
    cbn [trace session]. rewrite (held_app _ _ _ _ _ _ Inv).
    apply shutdown_held.
Qed.

Lemma run_held env calls :
  forall m,
    holds_what_was_stored m ->
    exists m', run env calls m = (Done tt, m') /\ holds_what_was_stored m'.
Proof.
  induction calls as [|c calls IH]; intros m Inv; cbn [run].
  - exists m. now split.
  - destruct (perform_held env c m Inv) as (m1 & Hc & Inv1).
    unfold bind. rewrite Hc. exact (IH m1 Inv1).
Qed.

(** With the statics zero-initialised and the server not started, every call
    but start returns at once and leaves the machine as it is. *)
Lemma run_inert env calls :
  forall m,
    session m = initial_session ->
    existsb is_start calls = false ->
    run env calls m = (Done tt, m).
Proof.
  induction calls as [|c calls IH]; intros m Hs Hc; cbn [run];
    [reflexivity|].
  cbn [existsb] in Hc. apply orb_false_elim in Hc as [Hc Hrest].
  unfold bind.
  assert (Hstep : perform env c m = (Done tt, m)).
  { destruct c as [| |c|]; cbn [perform is_start] in *;
      [discriminate| | |]; unfold bind, ret.
    - rewrite init_client_not_started; [reflexivity|]. now rewrite Hs.
    - rewrite gateway_guard; [reflexivity|]. left. now rewrite Hs.
    - rewrite shutdown_run, (shutdown_events_cleared env m Hs), app_nil_r.
      destruct m; simpl in *. now subst. }
  rewrite Hstep. now apply IH.
Qed.

(** *** Commands *)

(** X1: a command of the gateway writes no static: the session, [si.cb] and
    [pi] are as before, and all it adds to the trace are stub calls, at most
    as many as the command asks for. *)
Theorem command_keeps_statics env (c : command) m :
  exists (b : bool) (m' : Machine) (evs : list event),
    gateway env c m = (Done b, m')
    /\ session m' = session m
    /\ si_cb m' = si_cb m
    /\ pi m' = pi m
    /\ trace m' = trace m ++ evs
    /\ forallb is_remote evs = true
    /\ (List.length evs <= List.length (remote_ops c))%nat.
Proof.
  destruct (gateway_events env c m) as (b & evs & Hrun & Hrem & Hlen).
  exists b, (extend m evs), evs. now repeat split.
Qed.

(** X2: past the guard, play, stop, set-volume, pause and resume each make
    one stub call, with the argument as given, and return true exactly when
    it came back. *)
Theorem single_call_command env (c : command) (op : remote_op) m :
  single_op c = Some op ->
  serverInit (session m) = true ->
  clientInit (session m) = true ->
  let h := hMidiRPCBinding (session m) in
  let reply := env_remote env (trace m) h op in
  gateway env c m =
  (Done match reply with Replied => true | Faulted _ => false end,
   extend m [EvRemote h op reply]).
Proof.
  intros Hop Hs Hc h reply.
  rewrite gateway_refines. unfold gateway_spec. rewrite Hs, Hc.
  cbn [andb]. fold h.
  destruct c; cbn [single_op] in Hop; try discriminate;
    injection Hop as <-; cbn [remote_ops invoke_all]; subst reply;
    destruct (env_remote env (trace m) h _); reflexivity.
Qed.

(** Setting the volume to 50 in a ready session. *)
Lemma single_call_command_witness :
  let m := snd (run ready_env [Start; Connect] initial_machine) in
  gateway ready_env (SetVolume 50) m =
  (Done true, extend m [EvRemote 8192 (OpChangeVolume 50) Replied]).
Proof.
  exact (single_call_command ready_env (SetVolume 50) (OpChangeVolume 50)
           (snd (run ready_env [Start; Connect] initial_machine))
           eq_refl eq_refl eq_refl).
Defined.

(** X3: RegisterSong checks neither the payload nor the size: once prepare
    came back, add-chunk goes out with the payload as given and the size
    read as an unsigned 32-bit number, so a size in range is sent as it is
    and a negative one wraps around. *)
Theorem register_song_count_wraps env data size m :
  serverInit (session m) = true ->
  clientInit (session m) = true ->
  env_remote env (trace m) (hMidiRPCBinding (session m)) OpPrepareNewSong
  = Replied ->
  let h := hMidiRPCBinding (session m) in
  exists (count : Z) (reply : rpc_reply) (b : bool),
    I_MidiRPCRegisterSong env data size m =
    (Done b,
     extend m [EvRemote h OpPrepareNewSong Replied;
               EvRemote h (OpAddChunk count data) reply])
    /\ 0 <= count < 2 ^ 32
    /\ (0 <= size < 2 ^ 32 -> count = size)
    /\ (- 2 ^ 32 <= size < 0 -> count = size + 2 ^ 32).
Proof.
  intros Hs Hc Hprep h.
  change (I_MidiRPCRegisterSong env data size m)
    with (gateway env (RegisterSong data size) m).
  rewrite gateway_refines. unfold gateway_spec. rewrite Hs, Hc.
  cbn [andb remote_ops invoke_all]. fold h. fold h in Hprep. rewrite Hprep.
  exists (to_unsigned_int size).
  exists (env_remote env (trace m ++ [EvRemote h OpPrepareNewSong Replied]) h
            (OpAddChunk (to_unsigned_int size) data)).
  destruct (env_remote env _ h (OpAddChunk _ _)) eqn:E;
    eexists; (split; [reflexivity|]); unfold to_unsigned_int;
    (split; [apply Z.mod_pos_bound; lia|]);
    (split; [intros H; now apply Z.mod_small|]);
    intros H; symmetry; apply Z.mod_unique with (q := -1); lia.
Qed.

(** An empty payload with size -1 in a ready session. *)
Lemma register_song_count_wraps_witness :
  let m := snd (run ready_env [Start; Connect] initial_machine) in
  exists (count : Z) (reply : rpc_reply) (b : bool),
    I_MidiRPCRegisterSong ready_env [] (-1) m =
    (Done b,
     extend m [EvRemote 8192 OpPrepareNewSong Replied;
               EvRemote 8192 (OpAddChunk count []) reply])
    /\ 0 <= count < 2 ^ 32
    /\ (0 <= -1 < 2 ^ 32 -> count = -1)
    /\ (- 2 ^ 32 <= -1 < 0 -> count = -1 + 2 ^ 32).
Proof.
  exact (register_song_count_wraps ready_env [] (-1)
           (snd (run ready_env [Start; Connect] initial_machine))
           eq_refl eq_refl eq_refl).
Defined.

(** *** Start *)

(** X4: when the executable is not found, start does not try to create the
    process: it looks the file up, warns with the path, and returns false;
    no static is written, [si.cb] included. *)
Theorem start_without_executable env m :
  env_file_exists env (trace m) (module_path env) = false ->
  I_MidiRPCInitServer env m =
  (Done false,
   extend m
     [EvFileExists (module_path env) false;
      EvWarning ("The RPC server " ++ module_path env
                 ++ " couldn't be found.")%string]).
Proof.
  intros H. rewrite init_server_run. cbv zeta. now rewrite H.
Qed.

(** Start as the first call, with no executable on disk. *)
Lemma start_without_executable_witness :
  I_MidiRPCInitServer missing_env initial_machine =
  (Done false,
   extend initial_machine
     [EvFileExists (module_path missing_env) false;
      EvWarning ("The RPC server " ++ module_path missing_env
                 ++ " couldn't be found.")%string]).
Proof.
  apply (start_without_executable missing_env initial_machine). reflexivity.
Defined.

(** X5: start writes no static of the binding and never lowers a flag: the
    binding string, the handle and [clientInit] are as before, and
    [serverInit] afterwards is its old value or-ed with the result.  A
    start that fails after one that succeeded leaves [serverInit] true. *)
Theorem start_only_raises_server_flag env m :
  exists (b : bool) (m' : Machine),
    I_MidiRPCInitServer env m = (Done b, m')
    /\ szStringBinding (session m') = szStringBinding (session m)
    /\ hMidiRPCBinding (session m') = hMidiRPCBinding (session m)
    /\ clientInit (session m') = clientInit (session m)
    /\ serverInit (session m') = serverInit (session m) || b.
Proof.
  rewrite init_server_run. cbv zeta.
  destruct (env_file_exists env _ _);
    [destruct (env_create_process env _ _)|];
    eexists; eexists; (split; [reflexivity|]);
    cbn [session extend set_serverInit szStringBinding hMidiRPCBinding
         serverInit clientInit];
    rewrite ?orb_true_r, ?orb_false_r; repeat split.
Qed.

(** *** Connect *)

(** X6: when composing the descriptor fails, connect returns false after
    that one call: nothing is resolved or polled, and [clientInit] and the
    handle are as before. *)
Theorem connect_compose_failure env m :
  let r := env_binding_compose env (trace m) protseq endpoint in
  serverInit (session m) = true ->
  fst r <> RPC_S_OK ->
  exists m' : Machine,
    I_MidiRPCInitClient env m = (Done false, m')
    /\ trace m' =
       trace m ++ [EvStringBindingCompose protseq endpoint (fst r) (snd r)]
    /\ clientInit (session m') = clientInit (session m)
    /\ hMidiRPCBinding (session m') = hMidiRPCBinding (session m).
Proof.
  intros r Hs Hfail.
  rewrite (init_client_started env m Hs), compose_run. cbv zeta. fold r.
  replace (failed (fst r)) with true
    by (symmetry; unfold failed; apply negb_true_iff, Z.eqb_neq, Hfail).
  eexists. split; [reflexivity|].
  destruct (snd r); repeat split.
Qed.

(** Connect after start, with a descriptor that cannot be composed. *)
Lemma connect_compose_failure_witness :
  let m := snd (run uncomposed_env [Start] initial_machine) in
  exists m' : Machine,
    I_MidiRPCInitClient uncomposed_env m = (Done false, m')
    /\ trace m' = trace m ++ [EvStringBindingCompose protseq endpoint 14 None]
    /\ clientInit (session m') = clientInit (session m)
    /\ hMidiRPCBinding (session m') = hMidiRPCBinding (session m).
Proof.
  apply (connect_compose_failure uncomposed_env
           (snd (run uncomposed_env [Start] initial_machine))).
  - reflexivity.
  - discriminate.
Defined.

(** X7: when the descriptor is composed and resolving it fails, connect
    returns false after those two calls: nothing is polled, [clientInit] is
    as before, and the binding string stays in its static, where the next
    shutdown finds it. *)
Theorem connect_resolve_failure env m :
  let r1 := env_binding_compose env (trace m) protseq endpoint in
  let e1 := EvStringBindingCompose protseq endpoint (fst r1) (snd r1) in
  let sz :=
    match snd r1 with
    | Some p => p
    | None => szStringBinding (session m)
    end in
  let r2 := env_binding_from_string env (trace m ++ [e1]) sz in
  serverInit (session m) = true ->
  fst r1 = RPC_S_OK ->
  fst r2 <> RPC_S_OK ->
  exists m' : Machine,
    I_MidiRPCInitClient env m = (Done false, m')
    /\ trace m' =
       trace m ++ [e1; EvBindingFromStringBinding sz (fst r2) (snd r2)]
    /\ szStringBinding (session m') = sz
    /\ clientInit (session m') = clientInit (session m).
Proof.
  intros r1 e1 sz r2 Hs Hok Hfail.
  rewrite (init_client_started env m Hs), compose_run. cbv zeta.
  fold r1. rewrite Hok. cbn [failed Z.eqb negb].
  rewrite resolve_run. cbv zeta.
  assert (Hm2 :
    forall m2,
      m2 = match snd r1 with
           | Some p =>
               set_session (set_szStringBinding p (session m))
                 (extend m [EvStringBindingCompose protseq endpoint
                              RPC_S_OK (snd r1)])
           | None =>
               extend m [EvStringBindingCompose protseq endpoint
                           RPC_S_OK (snd r1)]
           end ->
      trace m2 = trace m ++ [e1]
      /\ szStringBinding (session m2) = sz
      /\ clientInit (session m2) = clientInit (session m)).
  { intros m2 ->. subst e1 sz. rewrite Hok. now destruct (snd r1). }
  match goal with
  | |- context [env_binding_from_string env (trace ?M) _] =>
      destruct (Hm2 M eq_refl) as (Htr & Hsz & Hcl)
  end.
  rewrite Htr, Hsz. fold r2.
  replace (failed (fst r2)) with true
    by (symmetry; unfold failed; apply negb_true_iff, Z.eqb_neq, Hfail).
  eexists. split; [reflexivity|].
  destruct (snd r2); cbn [trace session extend set_session
                          set_hMidiRPCBinding szStringBinding clientInit];
    rewrite Htr, <- app_assoc; repeat split; auto.
Qed.

(** Connect after start, with a descriptor that does not resolve: the
    string 4096 stays allocated. *)
Lemma connect_resolve_failure_witness :
  let m := snd (run unresolved_env [Start] initial_machine) in
  exists m' : Machine,
    I_MidiRPCInitClient unresolved_env m = (Done false, m')
    /\ trace m' =
       trace m ++ [EvStringBindingCompose protseq endpoint 0 (Some 4096);
                   EvBindingFromStringBinding 4096 1700 None]
    /\ szStringBinding (session m') = 4096
    /\ clientInit (session m') = clientInit (session m).
Proof.
  apply (connect_resolve_failure unresolved_env
           (snd (run unresolved_env [Start] initial_machine))).
  - reflexivity.
  - reflexivity.
  - discriminate.
Defined.

(** X8: connect returns true only when the server was started and the last
    thing it did was a listening check that the helper answered with
    RPC_S_OK; both flags are then true. *)
Theorem connect_true_means_listening env m m' :
  I_MidiRPCInitClient env m = (Done true, m') ->
  serverInit (session m) = true
  /\ serverInit (session m') = true
  /\ clientInit (session m') = true
  /\ exists tr : list event,
       trace m' =
       tr ++ [EvIsServerListening (hMidiRPCBinding (session m')) RPC_S_OK]
       /\ env_server_listening env tr (hMidiRPCBinding (session m'))
          = RPC_S_OK.
Proof.
  intros Hrun.
  destruct (serverInit (session m)) eqn:Hs.
  2:{ rewrite (init_client_not_started env m Hs) in Hrun. discriminate. }
  rewrite (init_client_started env m Hs) in Hrun.
  destruct (compose_done env protseq endpoint set_szStringBinding m)
    as (st1 & m2 & H1).
  rewrite H1 in Hrun. apply compose_keeps_flags in H1 as [S1 _].
  destruct (failed st1); [discriminate|].
  destruct (resolve_done env (szStringBinding (session m2))
              set_hMidiRPCBinding m2) as (st2 & m3 & H2).
  rewrite H2 in Hrun. apply resolve_keeps_flags in H2 as [S2 _].
  destruct (failed st2); [discriminate|].
  set (m3' := set_session (set_clientInit true (session m3)) m3) in *.
  destruct (wait_loop_spec env 49 0 m3' tries_left_0)
    as (b & sts & Hw & _ & Hb).
  unfold I_MidiRPCWaitForServer in Hrun. rewrite Hw in Hrun.
  injection Hrun as -> <-.
  destruct Hb as [_ Hok].
  cbn [session extend trace serverInit clientInit hMidiRPCBinding].
  repeat split; try congruence.
  - subst m3'. cbn. congruence.
  - exists (trace m3' ++ failed_polls (hMidiRPCBinding (session m3')) sts).
    cbn [final_poll]. rewrite app_assoc. now split.
Qed.

(** Connect after start, with a helper that listens from the third check. *)
Lemma connect_true_means_listening_witness :
  let m := snd (run ready_env [Start] initial_machine) in
  let m' := snd (I_MidiRPCInitClient ready_env m) in
  serverInit (session m) = true
  /\ serverInit (session m') = true
  /\ clientInit (session m') = true
  /\ exists tr : list event,
       trace m' =
       tr ++ [EvIsServerListening (hMidiRPCBinding (session m')) RPC_S_OK]
       /\ env_server_listening ready_env tr (hMidiRPCBinding (session m'))
          = RPC_S_OK.
Proof.
  apply (connect_true_means_listening ready_env
           (snd (run ready_env [Start] initial_machine))).
  vm_compute. reflexivity.
Defined.

(** X9: connect releases nothing and lowers no flag: its calls are compose,
    resolve, listening checks and sleeps, never a free, even when it
    overwrites a binding string or handle it found in the statics;
    [serverInit] and [pi] are as before, and a [clientInit] that was true
    stays true. *)
Theorem connect_never_releases env m :
  exists (b : bool) (m' : Machine) (evs : list event),
    I_MidiRPCInitClient env m = (Done b, m')
    /\ trace m' = trace m ++ evs
    /\ forallb is_connect_event evs = true
    /\ existsb is_free evs = false
    /\ serverInit (session m') = serverInit (session m)
    /\ (clientInit (session m) = true -> clientInit (session m') = true)
    /\ pi m' = pi m.
Proof.
  destruct (init_client_trace env m)
    as (b & m' & evs & Hrun & Htr & Hev & _ & Hs & Hc & _ & Hpi).
  exists b, m', evs. repeat split; auto.
  clear - Hev. induction evs as [|e evs IH]; [reflexivity|].
  cbn [forallb existsb] in *. apply andb_prop in Hev as [He Hev].
  rewrite (IH Hev). now destruct e.
Qed.

(** *** Shutdown and call sequences *)

(** X10: after shutdown only start does anything: a sequence of connects,
    commands and shutdowns that follows returns with no call made and no
    static written. *)
Theorem calls_after_shutdown_are_inert env (calls : list api_call) m :
  existsb is_start calls = false ->
  run env (ShutDown :: calls) m = I_MidiRPCClientShutDown env m.
Proof.
  intros H. cbn [run perform]. unfold bind. rewrite shutdown_run.
  now apply run_inert.
Qed.

(** Connect, play and shutdown after a shutdown of a ready session. *)
Lemma calls_after_shutdown_are_inert_witness :
  let m := snd (run ready_env [Start; Connect] initial_machine) in
  run ready_env [ShutDown; Connect; Command (PlaySong true); ShutDown] m
  = I_MidiRPCClientShutDown ready_env m.
Proof.
  apply (calls_after_shutdown_are_inert ready_env
           [Connect; Command (PlaySong true); ShutDown]
           (snd (run ready_env [Start; Connect] initial_machine))).
  reflexivity.
Defined.

(** X11: along every sequence of calls from the zero-initialised statics,
    each free releases what the static holds at that moment, which is what
    the last compose (or resolve) stored and is not NULL, and leaves NULL
    behind: nothing is released twice, and nothing that was not handed out
    is released. *)
Theorem frees_match_allocations env (calls : list api_call) :
  let m := snd (run env calls initial_machine) in
  held NULL NULL (trace m)
  = Some (szStringBinding (session m), hMidiRPCBinding (session m)).
Proof.
  intros m. subst m.
  destruct (run_held env calls initial_machine eq_refl) as (m' & Hrun & Inv).
  rewrite Hrun. exact Inv.
Qed.

(** X12: shutdown of a session that has a server, a binding string and a
    handle makes three calls in this order: stop-server on the handle, then
    the free of the string, then the free of the handle; [si.cb] and [pi]
    are as before (the process and thread handles are not closed). *)
Theorem shutdown_order env m :
  serverInit (session m) = true ->
  szStringBinding (session m) <> NULL ->
  hMidiRPCBinding (session m) <> NULL ->
  let h := hMidiRPCBinding (session m) in
  exists m' : Machine,
    I_MidiRPCClientShutDown env m = (Done tt, m')
    /\ trace m' =
       trace m
       ++ [EvRemote h OpStopServer (env_remote env (trace m) h OpStopServer);
           EvStringFree (szStringBinding (session m));
           EvBindingFree h]
    /\ si_cb m' = si_cb m
    /\ pi m' = pi m.
Proof.
  intros Hs Hsz Hh h. rewrite shutdown_run. eexists.
  split; [reflexivity|]. cbn [trace si_cb pi]. unfold shutdown_events.
  fold h. rewrite Hs.
  apply Z.eqb_neq in Hsz, Hh. fold h in Hh. rewrite Hsz, Hh.
  repeat split.
Qed.

(** Shutdown of a ready session. *)
Lemma shutdown_order_witness :
  let m := snd (run ready_env [Start; Connect] initial_machine) in
  exists m' : Machine,
    I_MidiRPCClientShutDown ready_env m = (Done tt, m')
    /\ trace m' =
       trace m ++ [EvRemote 8192 OpStopServer Replied;
                   EvStringFree 4096;
                   EvBindingFree 8192]
    /\ si_cb m' = si_cb m
    /\ pi m' = pi m.
Proof.
  apply (shutdown_order ready_env
           (snd (run ready_env [Start; Connect] initial_machine))).
  - reflexivity.
  - discriminate.
  - discriminate.
Defined.

(** *** The readiness poll *)

(** X13: the poll sleeps once after every failed check, the last one
    included: when the first check finds the server listening it returns
    true without sleeping; when it returns true it slept 10 ms for every
    check but the last; when it returns false it made exactly 50 checks
    and slept exactly 500 ms. *)
Theorem poll_sleeps_once_per_failed_check env m :
  exists (b : bool) (evs : list event),
    I_MidiRPCWaitForServer env m = (Done b, extend m evs)
    /\ slept evs
       = 10 * (Z.of_nat (count is_listening_check evs) - (if b then 1 else 0))
    /\ (b = false ->
        count is_listening_check evs = 50%nat /\ slept evs = 500)
    /\ (env_server_listening env (trace m) (hMidiRPCBinding (session m))
        = RPC_S_OK ->
        b = true
        /\ evs = [EvIsServerListening (hMidiRPCBinding (session m))
                    RPC_S_OK]).
Proof.
  destruct (wait_loop_spec env 49 0 m tries_left_0) as (b & sts & H & F & Hb).
  unfold I_MidiRPCWaitForServer.
  exists b, (failed_polls (hMidiRPCBinding (session m)) sts
             ++ final_poll (hMidiRPCBinding (session m)) b).
  split; [exact H|].
  rewrite count_app, slept_app, failed_polls_checks, failed_polls_slept.
  split;
    [destruct b; unfold count;
     cbn [final_poll filter is_listening_check List.length slept]; lia|].
  split.
  - intros ->. unfold count.
    cbn [final_poll filter is_listening_check List.length slept].
    rewrite Hb. split; reflexivity.
  - intros Hok. rewrite wait_loop_step in H. cbv zeta in H.
    rewrite Hok in H. cbn [Z.eqb RPC_S_OK] in H.
    injection H as <- Hm. split; [reflexivity|].
    apply app_inv_head in Hm. now rewrite <- Hm.
Qed.




Lemma invoke_all_some env h op ops tr :
  (1 <= count is_remote (snd (invoke_all env h (op :: ops) tr)))%nat.
Proof.
  cbn [invoke_all]. destruct (env_remote env tr h op).
  - destruct (invoke_all env h ops _) as [ok evs]. unfold count. cbn. lia.
  - unfold count. cbn. lia.
Qed.

(** X15: a fault does not close the session: in a session with both flags
    true, however many commands are issued and whatever the stubs do, the
    flags and the handle stay as they are and every command makes at least
    one stub call. *)
Theorem commands_keep_session_ready env (cs : list command) :
  forall m,
    serverInit (session m) = true ->
    clientInit (session m) = true ->
    exists m' : Machine,
      run env (map Command cs) m = (Done tt, m')
      /\ session m' = session m
      /\ (count is_remote (trace m) + List.length cs
          <= count is_remote (trace m'))%nat.
Proof.
  induction cs as [|c cs IH]; intros m Hs Hc; cbn [map run].
  - exists m. repeat split. cbn. lia.
  - cbn [perform]. unfold bind at 1 2, ret.
    rewrite gateway_refines. unfold gateway_spec. rewrite Hs, Hc.
    cbn [andb].
    assert (Hsome :
      (1 <= count is_remote
              (snd (invoke_all env (hMidiRPCBinding (session m))
                      (remote_ops c) (trace m))))%nat)
      by (destruct c; apply invoke_all_some).
    destruct (invoke_all env _ _ _) as [ok evs]. cbn [snd] in Hsome.
    destruct (IH (extend m evs) Hs Hc) as (m' & Hrun & Hsess & Hcount).
    rewrite Hrun. exists m'. split; [reflexivity|]. split; [exact Hsess|].
    cbn [trace extend] in Hcount. rewrite count_app in Hcount.
    cbn [List.length]. lia.
Qed.

(** Three plays against a helper that is gone. *)
Lemma commands_keep_session_ready_witness :
  let m := snd (run crashed_env [Start; Connect] initial_machine) in
  exists m' : Machine,
    run crashed_env
      (map Command [PlaySong true; PlaySong true; PlaySong true]) m
    = (Done tt, m')
    /\ session m' = session m
    /\ (count is_remote (trace m) + 3 <= count is_remote (trace m'))%nat.
Proof.
  apply (commands_keep_session_ready crashed_env
           [PlaySong true; PlaySong true; PlaySong true]
           (snd (run crashed_env [Start; Connect] initial_machine)));
    reflexivity.
Defined.
